(** * scripts/build.py: copying and packing of plugin build outputs

    A shallow embedding of [scripts/build.py].  The script validates a
    handful of paths and then, for each plugin of a fixed list, either
    copies the build output tree below a destination directory or packs
    its files into a zip archive.

    The file system is a finite tree; the script is a computation in a
    state-and-exception monad over that tree together with a log of
    the library calls it makes.  Symbolic links, permissions, file
    timestamps and I/O failures of the device are outside the model.
    In particular [ZipFile.write] refuses a file whose modification
    time lies before 1980, which the model cannot see: statements
    about pack mode therefore either take the success of the run as a
    hypothesis or concern steps that write no member. *)

From Stdlib Require Import List String Ascii Bool Arith Lia.
From Stdlib Require Import Init.Byte.
Import ListNotations.
Local Open Scope string_scope.
Local Open Scope list_scope.

Set Warnings "-register-all".

(** ** Paths and file-system trees *)

(** An absolute, normalised path: the list of its components below the
    root.  [os.path.join p name] with a separator-free [name] is
    [p ++ [name]]. *)
Definition path := list string.

(** What a regular file holds: plain bytes, or a zip archive with its
    members in the order they were written (names may repeat). *)
Inductive data : Type :=
| Raw (bytes : list byte)
| Archive (members : list (string * data)).

(** A directory lists its entries in the order [os.scandir] reports
    them. *)
Inductive node : Type :=
| File (d : data)
| Dir (entries : list (string * node)).

Module Fs.

(** First entry called [k], the one a path lookup reaches. *)
Fixpoint assoc {A : Type} (k : string) (l : list (string * A)) : option A :=
  match l with
  | [] => None
  | (k', v) :: r => if String.eqb k k' then Some v else assoc k r
  end.

(** Apply [h] to the first entry called [k]. *)
Fixpoint map_first {A : Type} (k : string) (h : A -> A)
    (l : list (string * A)) : list (string * A) :=
  match l with
  | [] => []
  | (k', v) :: r =>
      if String.eqb k k' then (k', h v) :: r else (k', v) :: map_first k h r
  end.

(** Replace the first entry called [k], or add one at the end. *)
Fixpoint set_entry {A : Type} (k : string) (v : A)
    (l : list (string * A)) : list (string * A) :=
  match l with
  | [] => [(k, v)]
  | (k', v') :: r =>
      if String.eqb k k' then (k', v) :: r else (k', v') :: set_entry k v r
  end.

(** Drop every entry called [k]. *)
Definition del_entry {A : Type} (k : string)
    (l : list (string * A)) : list (string * A) :=
  filter (fun e => negb (String.eqb k (fst e))) l.

Fixpoint lookup (p : path) (n : node) : option node :=
  match p with
  | [] => Some n
  | k :: q =>
      match n with
      | Dir es =>
          match assoc k es with
          | Some c => lookup q c
          | None => None
          end
      | File _ => None
      end
  end.

(** Rewrite the entry list of the directory at [p]; nothing happens
    when [p] is not a directory. *)
Fixpoint update_dir (p : path)
    (g : list (string * node) -> list (string * node)) (n : node) : node :=
  match n with
  | File _ => n
  | Dir es =>
      match p with
      | [] => Dir (g es)
      | k :: q => Dir (map_first k (update_dir q g) es)
      end
  end.

(** Parent directory and last component of a non-root path. *)
Fixpoint split_last (p : path) : option (path * string) :=
  match p with
  | [] => None
  | [k] => Some ([], k)
  | k :: q =>
      match split_last q with
      | Some (d, b) => Some (k :: d, b)
      | None => None
      end
  end.

Definition put (p : path) (new : node) (n : node) : node :=
  match split_last p with
  | Some (d, b) => update_dir d (set_entry b new) n
  | None => new
  end.

Definition remove (p : path) (n : node) : node :=
  match split_last p with
  | Some (d, b) => update_dir d (del_entry b) n
  | None => n
  end.

Definition exists_ (p : path) (n : node) : bool :=
  match lookup p n with Some _ => true | None => false end.

Definition isdir (p : path) (n : node) : bool :=
  match lookup p n with Some (Dir _) => true | _ => false end.

Definition isfile (p : path) (n : node) : bool :=
  match lookup p n with Some (File _) => true | _ => false end.

(** The two paths part ways at some component: neither lies at or
    below the other. *)
Fixpoint apart (p r : path) : bool :=
  match p, r with
  | k :: p', k' :: r' => if String.eqb k k' then apart p' r' else true
  | _, _ => false
  end.

(** [p] is [r] or an ancestor of [r]. *)
Fixpoint is_prefix (p r : path) : bool :=
  match p, r with
  | [], _ => true
  | k :: p', k' :: r' => String.eqb k k' && is_prefix p' r'
  | _ :: _, [] => false
  end.

(** *** What [shutil.copytree] and [os.walk] need *)

(** Nested directories [q] ending in [new]. *)
Fixpoint chain (q : path) (new : node) : node :=
  match q with
  | [] => new
  | k :: q' => Dir [(k, chain q' new)]
  end.

(** [os.makedirs p] followed by filling [p] with [new]: missing
    ancestors are created, an existing [p] is refused ([inl true]) and
    so is a regular file on the way ([inl false]). *)
Fixpoint place (p : path) (new : node) (n : node) : bool + node :=
  match n with
  | File _ => inl (match p with [] => true | _ => false end)
  | Dir es =>
      match p with
      | [] => inl true
      | k :: q =>
          match assoc k es with
          | Some c =>
              match place q new c with
              | inl b => inl b
              | inr c' => inr (Dir (map_first k (fun _ => c') es))
              end
          | None => inr (Dir (es ++ [(k, chain q new)]))
          end
      end
  end.

(** [dst] lies at least two levels below [src], inside an existing
    subdirectory of [src]: each level of the copy then finds the
    directories the previous level created, and the copy never ends. *)
Definition copies_into_itself (src dst : path) (n : node) : bool :=
  match skipn (List.length src) dst with
  | k :: _ :: _ => is_prefix src dst && isdir (src ++ [k]) n
  | _ => false
  end.

(** The [(root, file)] pairs of [os.walk]: the files of a directory in
    listing order, then its subdirectories in listing order. *)
Fixpoint walk_node (root : path) (n : node) : list (path * string) :=
  match n with
  | File _ => []
  | Dir es =>
      (fix files (l : list (string * node)) : list (path * string) :=
         match l with
         | [] => []
         | (k, File _) :: r => (root, k) :: files r
         | (_, Dir _) :: r => files r
         end) es
      ++
      (fix subdirs (l : list (string * node)) : list (path * string) :=
         match l with
         | [] => []
         | (k, c) :: r =>
             match c with
             | Dir _ => walk_node (root ++ [k]) c ++ subdirs r
             | File _ => subdirs r
             end
         end) es
  end.

End Fs.

(** ** Library calls, exceptions and the state they act on *)

(** The calls the script makes into [os], [shutil] and [zipfile], in
    the order it makes them. *)
Inductive call : Type :=
| CExists (p : path)
| CIsDir (p : path)
| CRmtree (p : path)
| CPrint (src dst : path)
| CCopytree (src dst : path)
| CZipOpen (p : path)
| CWalk (top : path)
| CZipWrite (src : path) (arcname : string)
| CZipClose (p : path).

(** Python exceptions that can leave [main].  [CopytreeError] stands
    for the [shutil.Error] or [RecursionError] that ends a copy of a
    directory into one of its own subdirectories. *)
Inductive exn : Type :=
| FileNotFoundError (p : path)
| NotADirectoryError (p : path)
| FileExistsError (p : path)
| IsADirectoryError (p : path)
| CopytreeError (p : path)
| ValueError (msg : string).

(** [myzip] is the [ZipFile] object of the [with] block: the members
    written so far while an archive is open. *)
Record state : Type := mkState {
  fs : node;
  myzip : option (list (string * data));
  log : list call
}.

Definition M (A : Type) : Type := state -> (exn + A) * state.

Definition ret {A : Type} (a : A) : M A := fun s => (inr a, s).

Definition raise {A : Type} (e : exn) : M A := fun s => (inl e, s).

Definition bind {A B : Type} (m : M A) (k : A -> M B) : M B :=
  fun s =>
    match m s with
    | (inr a, s') => k a s'
    | (inl e, s') => (inl e, s')
    end.

(** [try: body finally: cleanup], as a [with] block runs [__exit__]. *)
Definition finally {A : Type} (body : M A) (cleanup : M unit) : M A :=
  fun s =>
    match body s with
    | (r, s') =>
        match cleanup s' with
        | (inr _, s'') => (r, s'')
        | (inl e, s'') => (inl e, s'')
        end
    end.

Declare Scope py_scope.
Delimit Scope py_scope with py.
Notation "x <- m ;; k" := (bind m (fun x => k))
  (at level 100, m at next level, right associativity) : py_scope.
Notation "m ;; k" := (bind m (fun _ => k))
  (at level 100, right associativity) : py_scope.
Local Open Scope py_scope.

Definition record (c : call) : M unit :=
  fun s => (inr tt, mkState (fs s) (myzip s) (log s ++ [c])).

Definition set_fs (n : node) : M unit :=
  fun s => (inr tt, mkState n (myzip s) (log s)).

Definition get_fs : M node := fun s => (inr (fs s), s).

Fixpoint for_each {A : Type} (l : list A) (body : A -> M unit) : M unit :=
  match l with
  | [] => ret tt
  | x :: r => body x ;; for_each r body
  end.

(** ** The library functions the script calls *)


Definition os_path_exists (p : path) : M bool :=
  record (CExists p) ;;
  n <- get_fs ;;
  ret (Fs.exists_ p n).

Definition os_path_isdir (p : path) : M bool :=
  record (CIsDir p) ;;
  n <- get_fs ;;
  ret (Fs.isdir p n).

(** [shutil.rmtree p]: [p] must be a directory; the whole tree goes.
    (The script never passes the root, which [Fs.remove] leaves.) *)
Definition shutil_rmtree (p : path) : M unit :=
  record (CRmtree p) ;;
  n <- get_fs ;;
  match Fs.lookup p n with
  | None => raise (FileNotFoundError p)
  | Some (File _) => raise (NotADirectoryError p)
  | Some (Dir _) => set_fs (Fs.remove p n)
  end.

(** [shutil.copytree src dst]: [src] is listed, [dst] is created (it
    must not exist) and receives a copy of every entry.  When [dst]
    lies inside a subdirectory of [src] the copy ends in an error
    after creating [dst]; what it leaves below [dst] is not modelled. *)
Definition shutil_copytree (src dst : path) : M unit :=
  record (CCopytree src dst) ;;
  n <- get_fs ;;
  match Fs.lookup src n with
  | None => raise (FileNotFoundError src)
  | Some (File _) => raise (NotADirectoryError src)
  | Some (Dir es) =>
      if Fs.copies_into_itself src dst n then
        match Fs.place dst (Dir []) n with
        | inr n' => set_fs n' ;; raise (CopytreeError dst)
        | inl true => raise (FileExistsError dst)
        | inl false => raise (NotADirectoryError dst)
        end
      else
        match Fs.place dst (Dir es) n with
        | inr n' => set_fs n'
        | inl true => raise (FileExistsError dst)
        | inl false => raise (NotADirectoryError dst)
        end
  end.

Definition print (src dst : path) : M unit := record (CPrint src dst).

(** [zipfile.ZipFile(p, "w", ...)]: the file is created or truncated
    at once; the archive itself reaches the disk on [close].  Until
    then the file reads as empty: how much of the archive has been
    flushed in between is not modelled. *)
Definition zip_open (p : path) : M unit :=
  record (CZipOpen p) ;;
  n <- get_fs ;;
  match Fs.lookup p n with
  | Some (Dir _) => raise (IsADirectoryError p)
  | _ =>
      match Fs.split_last p with
      | None => raise (IsADirectoryError p)
      | Some (d, _) =>
          match Fs.lookup d n with
          | None => raise (FileNotFoundError p)
          | Some (File _) => raise (NotADirectoryError p)
          | Some (Dir _) =>
              fun s => (inr tt, mkState (Fs.put p (File (Raw [])) n)
                                        (Some []) (log s))
          end
      end
  end.

(** [myzip.write(src, arcname)]: one more member, whatever names the
    archive already holds ([zipfile] only warns about a duplicate).
    The member holds what the file reads as on the disk of the model;
    an archive that is still open reads as empty there (see
    [zip_open]).  The [ValueError] of [zipfile] for a file last
    modified before 1980 has no counterpart here, a file of the model
    having no timestamp. *)
Definition zip_write (src : path) (arcname : string) : M unit :=
  record (CZipWrite src arcname) ;;
  n <- get_fs ;;
  match Fs.lookup src n with
  | Some (File d) =>
      fun s =>
        (inr tt,
         mkState (fs s)
                 (match myzip s with
                  | Some ms => Some (ms ++ [(arcname, d)])
                  | None => None
                  end)
                 (log s))
  | Some (Dir _) => raise (IsADirectoryError src)
  | None => raise (FileNotFoundError src)
  end.

(** [ZipFile.__exit__]: the members written so far become the file. *)
Definition zip_close (p : path) : M unit :=
  record (CZipClose p) ;;
  fun s =>
    match myzip s with
    | Some ms =>
        (inr tt, mkState (Fs.put p (File (Archive ms)) (fs s)) None (log s))
    | None => (inr tt, s)
    end.

(** [os.walk top], flattened to the files it yields; a [top] that is
    no directory yields nothing. *)
Definition os_walk (top : path) : M (list (path * string)) :=
  record (CWalk top) ;;
  n <- get_fs ;;
  match Fs.lookup top n with
  | Some (Dir es) => ret (Fs.walk_node top (Dir es))
  | _ => ret []
  end.

(** ** The script *)

Definition configuration : string := "Debug".
Definition target : string := "net462".

Definition plugins : list string :=
  [ "F95ZoneMetadata";
    "DLSiteMetadata" ].

Definition validate_path (p : path) (is_dir : bool) : M unit :=
  e <- os_path_exists p ;;
  if negb e then raise (FileNotFoundError p)
  else if is_dir then
    d <- os_path_isdir p ;;
    if negb d then raise (NotADirectoryError p) else ret tt
  else ret tt.

Definition get_build_output_path (plugin_path : path) : M path :=
  let result := plugin_path ++ ["bin"; configuration; target] in
  validate_path result true ;;
  ret result.

(** The body of the [for plugin in plugins] loop of [main]. *)
Definition process_plugin (mode : string) (src_path output_path : path)
    (plugin : string) : M unit :=
  let plugin_path := src_path ++ [plugin] in
  validate_path plugin_path true ;;
  build_output_path <- get_build_output_path plugin_path ;;
  if String.eqb mode "copy" then
    let plugin_output_path := output_path ++ [plugin] in
    e <- os_path_exists plugin_output_path ;;
    (if e then shutil_rmtree plugin_output_path else ret tt) ;;
    print build_output_path plugin_output_path ;;
    shutil_copytree build_output_path plugin_output_path
  else if String.eqb mode "pack" then
    let zip_output_path := output_path ++ [(plugin ++ ".zip")%string] in
    zip_open zip_output_path ;;
    finally
      (files <- os_walk build_output_path ;;
       for_each files
         (fun rf => zip_write (fst rf ++ [snd rf]) (snd rf)))
      (zip_close zip_output_path)
  else
    raise (ValueError ("Unknown mode: " ++ mode)%string).

Section Main.

(** [os.path.abspath]: it depends on the platform and on the working
    directory, and it does not look at the disk. *)
Variable abspath : string -> path.

Definition main (argv : list string) : M unit :=
  if negb (Nat.eqb (List.length argv) 3) then
    raise (ValueError "Not enough arguments!")
  else
    let output_path := abspath (nth 2 argv "") in
    validate_path output_path true ;;
    let src_path := abspath "../src" in
    validate_path src_path true ;;
    let mode := nth 1 argv "" in
    for_each plugins (process_plugin mode src_path output_path).

End Main.

(** A run starts with no archive open and an empty log. *)
Definition start (n : node) : state := mkState n None [].

(** ** A POSIX [abspath], for concrete runs *)

Module Posix.

Fixpoint split_on (sep : ascii) (s : string) (cur : string) : list string :=
  match s with
  | EmptyString => [cur]
  | String c r =>
      if Ascii.eqb c sep then cur :: split_on sep r ""
      else split_on sep r (cur ++ String c "")%string
  end.

Definition step (acc : path) (c : string) : path :=
  if String.eqb c "" then acc
  else if String.eqb c "." then acc
  else if String.eqb c ".." then removelast acc
  else acc ++ [c].

Definition abspath (cwd : path) (s : string) : path :=
  let base := match s with
              | String "/" _ => []
              | _ => cwd
              end in
  fold_left step (split_on "/" s "") base.

End Posix.

(** ** Outcomes of the validation, as functions of the disk *)

(** What [validate_path] returns, as a function of the disk alone. *)
Definition validate_outcome (p : path) (is_dir : bool) (n : node) : exn + unit :=
  if negb (Fs.exists_ p n) then inl (FileNotFoundError p)
  else if is_dir && negb (Fs.isdir p n) then inl (NotADirectoryError p)
  else inr tt.

(** The queries [validate_path] logs. *)
Definition validate_calls (p : path) (is_dir : bool) (n : node) : list call :=
  if negb (Fs.exists_ p n) then [CExists p]
  else if is_dir then [CExists p; CIsDir p]
  else [CExists p].


(** ** Notions used in the statements *)

(** [g] leaves every entry not called [b] alone. *)
Definition only_touches (b : string)
    (g : list (string * node) -> list (string * node)) : Prop :=
  forall k es, String.eqb k b = false -> Fs.assoc k (g es) = Fs.assoc k es.

(** A computation changes the disk at or below the paths [os] only,
    and at ancestors of these: every path that parts ways with all of
    them reads as it did before.  With [os = []] the disk is left
    exactly as it was. *)
Definition touches_only {A : Type} (os : list path) (m : M A) : Prop :=
  forall s q,
    (forall o, In o os -> Fs.apart o q = true) ->
    Fs.lookup q (fs (snd (m s))) = Fs.lookup q (fs s).

(** Where [process_plugin] writes for one plugin. *)
Definition plugin_outputs (mode : string) (output_path : path)
    (plugin : string) : list path :=
  if String.eqb mode "copy" then [output_path ++ [plugin]]
  else if String.eqb mode "pack" then [output_path ++ [(plugin ++ ".zip")%string]]
  else [].

Definition build_output (src_path : path) (plugin : string) : path :=
  (src_path ++ [plugin]) ++ ["bin"; configuration; target].

(** The state [validate_path] leaves behind. *)
Definition after_validate (p : path) (is_dir : bool) (s : state) : state :=
  mkState (fs s) (myzip s) (log s ++ validate_calls p is_dir (fs s)).

(** The [if mode == ...] part of the loop body, once the plugin's
    paths are validated. *)
Definition plugin_action (mode : string) (build_output_path output_path : path)
    (plugin : string) : M unit :=
  if String.eqb mode "copy" then
    let plugin_output_path := output_path ++ [plugin] in
    e <- os_path_exists plugin_output_path ;;
    (if e then shutil_rmtree plugin_output_path else ret tt) ;;
    print build_output_path plugin_output_path ;;
    shutil_copytree build_output_path plugin_output_path
  else if String.eqb mode "pack" then
    let zip_output_path := output_path ++ [(plugin ++ ".zip")%string] in
    zip_open zip_output_path ;;
    finally
      (files <- os_walk build_output_path ;;
       for_each files
         (fun rf => zip_write (fst rf ++ [snd rf]) (snd rf)))
      (zip_close zip_output_path)
  else
    raise (ValueError ("Unknown mode: " ++ mode)%string).

Definition run_outputs (mode : string) (output_path : path) : list path :=
  flat_map (plugin_outputs mode output_path) plugins.

(** Result and disk of [shutil.rmtree] and [shutil.copytree], as
    functions of the disk. *)
Definition rmtree_result (p : path) (n : node) : (exn + unit) * node :=
  match Fs.lookup p n with
  | None => (inl (FileNotFoundError p), n)
  | Some (File _) => (inl (NotADirectoryError p), n)
  | Some (Dir _) => (inr tt, Fs.remove p n)
  end.

Definition copytree_result (src dst : path) (n : node) : (exn + unit) * node :=
  match Fs.lookup src n with
  | None => (inl (FileNotFoundError src), n)
  | Some (File _) => (inl (NotADirectoryError src), n)
  | Some (Dir es) =>
      if Fs.copies_into_itself src dst n then
        match Fs.place dst (Dir []) n with
        | inr n' => (inl (CopytreeError dst), n')
        | inl true => (inl (FileExistsError dst), n)
        | inl false => (inl (NotADirectoryError dst), n)
        end
      else
        match Fs.place dst (Dir es) n with
        | inr n' => (inr tt, n')
        | inl true => (inl (FileExistsError dst), n)
        | inl false => (inl (NotADirectoryError dst), n)
        end
  end.

(** ** A sample repository, for concrete runs *)

Module Sample.

Definition cwd : path := ["repo"; "scripts"].
Definition abspath : string -> path := Posix.abspath cwd.

(** A plugin directory whose build output is [t]. *)
Definition plug (t : node) : node :=
  Dir [("bin", Dir [(configuration, Dir [(target, t)])])].

Definition tree1 : node :=
  Dir [("a.txt", File (Raw [x01]));
       ("sub", Dir [("b.txt", File (Raw [x02]))])].

Definition tree2 : node :=
  Dir [("a", Dir [("x.txt", File (Raw [x03]))]);
       ("b", Dir [("x.txt", File (Raw [x04]))])].

(** [/repo/scripts], [/repo/src/<plugin>/bin/Debug/net462] and [/out]. *)
Definition disk_with (p1 p2 out : node) : node :=
  Dir [("repo",
        Dir [("scripts", Dir []);
             ("src", Dir [("F95ZoneMetadata", p1); ("DLSiteMetadata", p2)])]);
       ("out", out)].

Definition disk (out : node) : node := disk_with (plug tree1) (plug tree2) out.

Definition stale_out : node :=
  Dir [("F95ZoneMetadata", Dir [("stale.txt", File (Raw [x09]))])].



End Sample.

(** Calls that only look at the disk. *)
Definition is_query (c : call) : bool :=
  match c with
  | CExists _ | CIsDir _ => true
  | _ => false
  end.

(** ** Pack mode, as functions of the disk *)

Definition zip_name (plugin : string) : string := (plugin ++ ".zip")%string.

(** The regular files [os.walk top] visits, in order. *)
Definition regular_files (top : path) (n : node) : list (path * string) :=
  match Fs.lookup top n with
  | Some (Dir es) => Fs.walk_node top (Dir es)
  | _ => []
  end.



(** Members written for [files] up to the first read that fails. *)
Fixpoint zip_members (n : node) (files : list (path * string))
    : list (string * data) * option exn :=
  match files with
  | [] => ([], None)
  | rf :: r =>
      match Fs.lookup (fst rf ++ [snd rf]) n with
      | Some (File d) =>
          let res := zip_members n r in ((snd rf, d) :: fst res, snd res)
      | Some (Dir _) => ([], Some (IsADirectoryError (fst rf ++ [snd rf])))
      | None => ([], Some (FileNotFoundError (fst rf ++ [snd rf])))
      end
  end.

Definition zip_open_result (p : path) (n : node) : (exn + unit) * node :=
  match Fs.lookup p n with
  | Some (Dir _) => (inl (IsADirectoryError p), n)
  | _ =>
      match Fs.split_last p with
      | None => (inl (IsADirectoryError p), n)
      | Some (d, _) =>
          match Fs.lookup d n with
          | None => (inl (FileNotFoundError p), n)
          | Some (File _) => (inl (NotADirectoryError p), n)
          | Some (Dir _) => (inr tt, Fs.put p (File (Raw [])) n)
          end
      end
  end.






(** ** Notions used in the further properties *)

(** Every directory of [n] is a directory of [n'] and every regular
    file of [n] is a regular file of [n']: nothing was removed, and
    nothing changed its kind. *)
Definition keeps_entries (n n' : node) : Prop :=
  forall q,
    (Fs.isdir q n = true -> Fs.isdir q n' = true) /\
    (Fs.isfile q n = true -> Fs.isfile q n' = true).

(** ** Decoding UTF-8 *)

From Stdlib Require Import NArith.
From Stdlib Require Strings.Byte.

(** The strict UTF-8 decoder behind [encodings.utf_8.decode].  A text
    is the list of its code points. *)
Module Utf8.

Definition in_range (lo hi n : N) : bool := (N.leb lo n && N.leb n hi)%bool.

Definition is_continuation (b : byte) : bool :=
  in_range 0x80 0xBF (Strings.Byte.to_N b).

(** Payload of a continuation byte. *)
Definition payload (b : byte) : N := (Strings.Byte.to_N b - 0x80)%N.

(** The code point at the head of [bs] and the number of bytes it
    takes; [None] for an invalid start byte, an invalid or missing
    continuation byte, an overlong form, a surrogate and a value
    above U+10FFFF. *)
Definition decode_one (bs : list byte) : option (N * nat) :=
  match bs with
  | [] => None
  | b0 :: r0 =>
      let n0 := Strings.Byte.to_N b0 in
      if N.ltb n0 0x80 then Some (n0, 1)
      else if N.ltb n0 0xC2 then None
      else if N.ltb n0 0xE0 then
        match r0 with
        | b1 :: _ =>
            if is_continuation b1
            then Some (((n0 - 0xC0) * 64 + payload b1)%N, 2)
            else None
        | _ => None
        end
      else if N.ltb n0 0xF0 then
        match r0 with
        | b1 :: b2 :: _ =>
            let lo := if N.eqb n0 0xE0 then 0xA0%N else 0x80%N in
            let hi := if N.eqb n0 0xED then 0x9F%N else 0xBF%N in
            if (in_range lo hi (Strings.Byte.to_N b1) && is_continuation b2)%bool
            then Some (((n0 - 0xE0) * 4096 + payload b1 * 64 + payload b2)%N, 3)
            else None
        | _ => None
        end
      else if N.ltb n0 0xF5 then
        match r0 with
        | b1 :: b2 :: b3 :: _ =>
            let lo := if N.eqb n0 0xF0 then 0x90%N else 0x80%N in
            let hi := if N.eqb n0 0xF4 then 0x8F%N else 0xBF%N in
            if (in_range lo hi (Strings.Byte.to_N b1)
                && is_continuation b2 && is_continuation b3)%bool
            then Some (((n0 - 0xF0) * 262144 + payload b1 * 4096
                        + payload b2 * 64 + payload b3)%N, 4)
            else None
        | _ => None
        end
      else None
  end.

(** The decoding loop; every round takes at least one byte, so
    [List.length bs] rounds are enough. *)
Fixpoint decode_loop (fuel : nat) (bs : list byte) : option (list N) :=
  match bs with
  | [] => Some []
  | _ :: _ =>
      match fuel with
      | O => None
      | S fuel' =>
          match decode_one bs with
          | Some (c, k) =>
              option_map (cons c) (decode_loop fuel' (skipn k bs))
          | None => None
          end
      end
  end.

(** [utf_8.decode b]: the text and the number of bytes consumed, or
    [None] for [UnicodeDecodeError]. *)
Definition decode (b : list byte) : option (list N * nat) :=
  option_map (fun t => (t, List.length b)) (decode_loop (List.length b) b).

(** A Unicode scalar value: at most U+10FFFF and no surrogate. *)
Definition scalar (c : N) : Prop :=
  (c < 0x110000 /\ ~ (0xD800 <= c <= 0xDFFF))%N.

(** The four shapes of an encoded code point. *)
Section Shapes.
Local Open Scope N_scope.

Definition one_byte (bs : list byte) (c : N) : Prop :=
  exists b0 r, bs = b0 :: r /\
    let n0 := Strings.Byte.to_N b0 in
    n0 < 0x80 /\ c = n0.

Definition two_bytes (bs : list byte) (c : N) : Prop :=
  exists b0 b1 r, bs = b0 :: b1 :: r /\
    let n0 := Strings.Byte.to_N b0 in
    let n1 := Strings.Byte.to_N b1 in
    0xC2 <= n0 < 0xE0 /\ 0x80 <= n1 <= 0xBF /\
    c = (n0 - 0xC0) * 64 + (n1 - 0x80).

Definition three_bytes (bs : list byte) (c : N) : Prop :=
  exists b0 b1 b2 r, bs = b0 :: b1 :: b2 :: r /\
    let n0 := Strings.Byte.to_N b0 in
    let n1 := Strings.Byte.to_N b1 in
    let n2 := Strings.Byte.to_N b2 in
    0xE0 <= n0 < 0xF0 /\ 0x80 <= n1 <= 0xBF /\ 0x80 <= n2 <= 0xBF /\
    (n0 = 0xE0 -> 0xA0 <= n1) /\ (n0 = 0xED -> n1 <= 0x9F) /\
    c = (n0 - 0xE0) * 4096 + (n1 - 0x80) * 64 + (n2 - 0x80).

Definition four_bytes (bs : list byte) (c : N) : Prop :=
  exists b0 b1 b2 b3 r, bs = b0 :: b1 :: b2 :: b3 :: r /\
    let n0 := Strings.Byte.to_N b0 in
    let n1 := Strings.Byte.to_N b1 in
    let n2 := Strings.Byte.to_N b2 in
    let n3 := Strings.Byte.to_N b3 in
    0xF0 <= n0 < 0xF5 /\ 0x80 <= n1 <= 0xBF /\ 0x80 <= n2 <= 0xBF /\
    0x80 <= n3 <= 0xBF /\
    (n0 = 0xF0 -> 0x90 <= n1) /\ (n0 = 0xF4 -> n1 <= 0x8F) /\
    c = (n0 - 0xF0) * 262144 + (n1 - 0x80) * 4096 + (n2 - 0x80) * 64
        + (n3 - 0x80).

End Shapes.

End Utf8.

Definition decode_utf8 (b : list byte) : option (list N) :=
  option_map fst (Utf8.decode b).

(** ** Notions used in the corrected claims *)

(** The error of the first of [ps], in order, that [validate_path]
    refuses as a directory: [FileNotFoundError] for a missing path,
    [NotADirectoryError] for one that is no directory. *)
Fixpoint first_failure (ps : list path) (n : node) : option exn :=
  match ps with
  | [] => None
  | p :: r =>
      match validate_outcome p true n with
      | inl e => Some e
      | inr _ => first_failure r n
      end
  end.

(** Disks on which the destination is the build output directory of
    [DLSiteMetadata]. *)
Module Overlap.

Definition dest : string := "/repo/src/DLSiteMetadata/bin/Debug/net462".

(** The build output tree of [DLSiteMetadata] holds
    [F95ZoneMetadata/old.dll]. *)
Definition old_build : node :=
  Dir [("F95ZoneMetadata", Dir [("old.dll", File (Raw [x05]))])].

Definition disk_old : node :=
  Sample.disk_with (Sample.plug Sample.tree1) (Sample.plug old_build) (Dir []).

(** The build output tree of [DLSiteMetadata] holds an earlier
    destination directory [DLSiteMetadata] with a stale
    [F95ZoneMetadata/a.txt]. *)
Definition stale_build : node :=
  Dir [("DLSiteMetadata",
        Dir [("F95ZoneMetadata", Dir [("a.txt", File (Raw [x09]))])])].

Definition disk_stale : node :=
  Sample.disk_with (Sample.plug Sample.tree1) (Sample.plug stale_build) (Dir []).


End Overlap.
(** ** Path validation *)

Ltac unfold_monad :=
  unfold bind, ret, raise, record, get_fs, set_fs in *; cbn [fst snd fs myzip log] in *.

Lemma validate_path_run (p : path) (is_dir : bool) (s : state) :
  validate_path p is_dir s =
  (validate_outcome p is_dir (fs s),
   mkState (fs s) (myzip s) (log s ++ validate_calls p is_dir (fs s))).
Proof.
  unfold validate_path, validate_outcome, validate_calls, os_path_exists, os_path_isdir.
  unfold_monad.
  destruct (Fs.exists_ p (fs s)); cbn; [|reflexivity].
  destruct is_dir; cbn; [|reflexivity].
  rewrite <- app_assoc; cbn.
  destruct (Fs.isdir p (fs s)); reflexivity.
Qed.

Lemma isdir_exists (p : path) (n : node) :
  Fs.isdir p n = true -> Fs.exists_ p n = true.
Proof.
  unfold Fs.isdir, Fs.exists_. destruct (Fs.lookup p n) as [[|]|]; congruence.
Qed.

Lemma validate_outcome_dir (p : path) (n : node) :
  Fs.isdir p n = true -> validate_outcome p true n = inr tt.
Proof.
  intros H. unfold validate_outcome.
  rewrite (isdir_exists _ _ H), H. reflexivity.
Qed.

Lemma validate_calls_dir (p : path) (n : node) :
  Fs.isdir p n = true -> validate_calls p true n = [CExists p; CIsDir p].
Proof.
  intros H. unfold validate_calls. rewrite (isdir_exists _ _ H). reflexivity.
Qed.

(** C7.  [validate_path p is_dir] raises [FileNotFoundError] exactly
    when [p] does not exist; with [is_dir] set it raises
    [NotADirectoryError] exactly when [p] exists and is no directory,
    and without the flag it never does; in every other case it
    returns.  The disk and the open archive are left as they were. *)
Theorem validate_path_spec (p : path) (is_dir : bool) (s : state) :
  let r := fst (validate_path p is_dir s) in
  let s' := snd (validate_path p is_dir s) in
  fs s' = fs s /\ myzip s' = myzip s /\
  (r = inl (FileNotFoundError p) <-> Fs.exists_ p (fs s) = false) /\
  (r = inl (NotADirectoryError p) <->
     is_dir = true /\ Fs.exists_ p (fs s) = true /\ Fs.isdir p (fs s) = false) /\
  (r = inr tt <->
     Fs.exists_ p (fs s) = true /\ (is_dir = true -> Fs.isdir p (fs s) = true)).
Proof.
  rewrite validate_path_run; cbn.
  unfold validate_outcome.
  destruct (Fs.exists_ p (fs s)), is_dir, (Fs.isdir p (fs s)); cbn;
    repeat split; intros; try congruence; try tauto;
    try (exfalso; intuition congruence).
Qed.

(** ** Entry lists *)

Section Entries.
Context {A : Type}.
Implicit Types (l : list (string * A)) (k : string).

Lemma assoc_map_first_same k (h : A -> A) l :
  Fs.assoc k (Fs.map_first k h l) = option_map h (Fs.assoc k l).
Proof.
  induction l as [|[k' v] l IH]; cbn; [reflexivity|].
  destruct (String.eqb k k') eqn:E; cbn; rewrite E; auto.
Qed.

Lemma assoc_map_first_other k k' (h : A -> A) l :
  String.eqb k' k = false ->
  Fs.assoc k' (Fs.map_first k h l) = Fs.assoc k' l.
Proof.
  intros N. induction l as [|[k0 v] l IH]; cbn; [reflexivity|].
  destruct (String.eqb k k0) eqn:E; cbn.
  - apply String.eqb_eq in E; subst k0. rewrite N. reflexivity.
  - rewrite IH. reflexivity.
Qed.

Lemma assoc_set_entry_other k k' (v : A) l :
  String.eqb k' k = false ->
  Fs.assoc k' (Fs.set_entry k v l) = Fs.assoc k' l.
Proof.
  intros N. induction l as [|[k0 v0] l IH]; cbn.
  - rewrite N. reflexivity.
  - destruct (String.eqb k k0) eqn:E; cbn.
    + apply String.eqb_eq in E; subst k0. rewrite N. reflexivity.
    + rewrite IH. reflexivity.
Qed.

Lemma assoc_set_entry_same k (v : A) l :
  Fs.assoc k (Fs.set_entry k v l) = Some v.
Proof.
  induction l as [|[k0 v0] l IH]; cbn.
  - rewrite String.eqb_refl. reflexivity.
  - destruct (String.eqb k k0) eqn:E; cbn; rewrite E; auto.
Qed.

Lemma assoc_del_entry_other k k' l :
  String.eqb k' k = false ->
  Fs.assoc k' (Fs.del_entry k l) = Fs.assoc k' l.
Proof.
  intros N. unfold Fs.del_entry.
  induction l as [|[k0 v0] l IH]; cbn; [reflexivity|].
  destruct (String.eqb k k0) eqn:E; cbn.
  - apply String.eqb_eq in E; subst k0. rewrite N. exact IH.
  - rewrite IH. reflexivity.
Qed.

Lemma assoc_del_entry_same k l : Fs.assoc k (Fs.del_entry k l) = None.
Proof.
  unfold Fs.del_entry.
  induction l as [|[k0 v0] l IH]; cbn; [reflexivity|].
  destruct (String.eqb k k0) eqn:E; cbn; [exact IH|].
  rewrite E. exact IH.
Qed.

Lemma assoc_app_none k l (e : A) k0 :
  Fs.assoc k l = None ->
  Fs.assoc k (l ++ [(k0, e)]) = if String.eqb k k0 then Some e else None.
Proof.
  induction l as [|[k1 v1] l IH]; cbn; [reflexivity|].
  destruct (String.eqb k k1); [discriminate|auto].
Qed.

Lemma assoc_app_some k l l' (v : A) :
  Fs.assoc k l = Some v -> Fs.assoc k (l ++ l') = Some v.
Proof.
  induction l as [|[k1 v1] l IH]; cbn; [discriminate|].
  destruct (String.eqb k k1); auto.
Qed.

End Entries.

(** ** Lookups after an update *)

Lemma lookup_app (p r : path) (n : node) :
  Fs.lookup (p ++ r) n =
  match Fs.lookup p n with Some c => Fs.lookup r c | None => None end.
Proof.
  revert n. induction p as [|k p IH]; intros n; cbn; [reflexivity|].
  destruct n as [d|es]; [reflexivity|].
  destruct (Fs.assoc k es); [apply IH|reflexivity].
Qed.

Lemma lookup_update_dir_apart (d : path) (b : string) g (q : path) (n : node) :
  only_touches b g ->
  Fs.apart (d ++ [b]) q = true ->
  Fs.lookup q (Fs.update_dir d g n) = Fs.lookup q n.
Proof.
  intros Hg. revert q n.
  induction d as [|k d IH]; intros q n Hap; destruct q as [|k' q]; cbn in Hap;
    try discriminate; destruct n as [x|es]; cbn; try reflexivity.
  - destruct (String.eqb b k') eqn:E; [destruct q; discriminate|].
    rewrite Hg; [reflexivity|]. rewrite String.eqb_sym. exact E.
  - destruct (String.eqb k k') eqn:E.
    + apply String.eqb_eq in E; subst k'.
      rewrite assoc_map_first_same.
      destruct (Fs.assoc k es); cbn; [apply IH; exact Hap|reflexivity].
    + rewrite assoc_map_first_other; [reflexivity|].
      rewrite String.eqb_sym. exact E.
Qed.

Lemma lookup_update_dir_at (d r : path) g (n : node) es :
  Fs.lookup d n = Some (Dir es) ->
  Fs.lookup (d ++ r) (Fs.update_dir d g n) = Fs.lookup r (Dir (g es)).
Proof.
  revert n. induction d as [|k d IH]; intros n H; cbn in H.
  - injection H as ->. reflexivity.
  - destruct n as [x|es0]; [discriminate|].
    destruct (Fs.assoc k es0) as [c|] eqn:E; [|discriminate].
    cbn [app Fs.update_dir Fs.lookup].
    rewrite assoc_map_first_same, E. cbn. apply IH. exact H.
Qed.

(** ** Paths that part ways *)

Lemma apart_sym (p q : path) : Fs.apart p q = Fs.apart q p.
Proof.
  revert q. induction p as [|k p IH]; intros [|k' q]; cbn; try reflexivity.
  rewrite (String.eqb_sym k' k). destruct (String.eqb k k'); auto.
Qed.

Lemma apart_app_r (p q r : path) :
  Fs.apart p q = true -> Fs.apart p (q ++ r) = true.
Proof.
  revert q. induction p as [|k p IH]; intros [|k' q]; cbn; try discriminate.
  destruct (String.eqb k k'); auto.
Qed.

Lemma apart_app_l (p q r : path) :
  Fs.apart p q = true -> Fs.apart (p ++ r) q = true.
Proof.
  rewrite (apart_sym p q), (apart_sym (p ++ r) q). apply apart_app_r.
Qed.

Lemma apart_siblings (d : path) (k k' : string) :
  String.eqb k k' = false -> Fs.apart (d ++ [k]) (d ++ [k']) = true.
Proof.
  intros N. induction d as [|x d IH]; cbn.
  - rewrite N. reflexivity.
  - rewrite String.eqb_refl. exact IH.
Qed.

Lemma apart_irrefl_prefix (p r : path) : Fs.apart p (p ++ r) = false.
Proof.
  induction p as [|k p IH]; cbn; [reflexivity|].
  rewrite String.eqb_refl. exact IH.
Qed.

Lemma split_last_snoc (d : path) (b : string) :
  Fs.split_last (d ++ [b]) = Some (d, b).
Proof.
  induction d as [|k d IH]; cbn; [reflexivity|].
  rewrite IH. destruct (d ++ [b]) eqn:E; [destruct d; discriminate|reflexivity].
Qed.

Lemma split_last_inv (p d : path) (b : string) :
  Fs.split_last p = Some (d, b) -> p = d ++ [b].
Proof.
  revert d. induction p as [|k p IH]; intros d H; cbn in H; [discriminate|].
  destruct p as [|k' p].
  - injection H as <- <-. reflexivity.
  - destruct (Fs.split_last (k' :: p)) as [[d' b']|]; [|discriminate].
    injection H as <- <-. cbn. f_equal. apply IH. reflexivity.
Qed.

Lemma only_touches_set (b : string) (v : node) : only_touches b (Fs.set_entry b v).
Proof. intros k es N. apply assoc_set_entry_other. exact N. Qed.

Lemma only_touches_del (b : string) : only_touches b (Fs.del_entry b).
Proof. intros k es N. apply assoc_del_entry_other. exact N. Qed.

(** ** Frames of the tree updates *)

Lemma split_last_none (p : path) : Fs.split_last p = None -> p = [].
Proof.
  induction p as [|k p IH]; intros H; [reflexivity|].
  cbn in H. destruct p as [|k' p]; [discriminate|].
  destruct (Fs.split_last (k' :: p)) as [[? ?]|]; [discriminate|].
  discriminate (IH eq_refl).
Qed.

Lemma lookup_put_apart (p q : path) (new n : node) :
  Fs.apart p q = true -> Fs.lookup q (Fs.put p new n) = Fs.lookup q n.
Proof.
  intros H. unfold Fs.put.
  destruct (Fs.split_last p) as [[d b]|] eqn:E.
  - apply split_last_inv in E. subst p.
    apply lookup_update_dir_apart with (b := b); auto using only_touches_set.
  - apply split_last_none in E. subst p. discriminate H.
Qed.

Lemma lookup_remove_apart (p q : path) (n : node) :
  Fs.apart p q = true -> Fs.lookup q (Fs.remove p n) = Fs.lookup q n.
Proof.
  intros H. unfold Fs.remove.
  destruct (Fs.split_last p) as [[d b]|] eqn:E; [|reflexivity].
  apply split_last_inv in E. subst p.
  apply lookup_update_dir_apart with (b := b); auto using only_touches_del.
Qed.

Lemma lookup_put_at (d : path) (b : string) (r : path) (new n : node) :
  Fs.isdir d n = true ->
  Fs.lookup (d ++ [b] ++ r) (Fs.put (d ++ [b]) new n) = Fs.lookup r new.
Proof.
  unfold Fs.isdir, Fs.put. intros H. rewrite split_last_snoc.
  destruct (Fs.lookup d n) as [[x|es]|] eqn:E; try discriminate.
  rewrite (lookup_update_dir_at d (b :: r) _ n es E). cbn.
  rewrite assoc_set_entry_same. reflexivity.
Qed.

Lemma lookup_chain (q r : path) (new : node) :
  Fs.lookup (q ++ r) (Fs.chain q new) = Fs.lookup r new.
Proof.
  induction q as [|k q IH]; cbn; [reflexivity|].
  rewrite String.eqb_refl. exact IH.
Qed.

Lemma lookup_place_at (p r : path) (new n n' : node) :
  Fs.place p new n = inr n' ->
  Fs.lookup (p ++ r) n' = Fs.lookup r new.
Proof.
  revert n n'. induction p as [|k p IH]; intros n n' H; destruct n as [x|es];
    cbn in H; try discriminate.
  destruct (Fs.assoc k es) as [c|] eqn:E.
  - destruct (Fs.place p new c) as [e|c'] eqn:P; [discriminate|].
    injection H as <-. cbn. rewrite assoc_map_first_same, E. cbn.
    eapply IH. exact P.
  - injection H as <-. cbn.
    rewrite (assoc_app_none _ _ _ _ E), String.eqb_refl.
    apply lookup_chain.
Qed.

Lemma lookup_chain_apart (p q : path) (new : node) :
  Fs.apart p q = true -> Fs.lookup q (Fs.chain p new) = None.
Proof.
  revert q. induction p as [|k p IH]; intros [|k' q] H; cbn in H;
    try discriminate; cbn.
  rewrite (String.eqb_sym k' k).
  destruct (String.eqb k k'); [apply IH; exact H|reflexivity].
Qed.

Lemma lookup_place_apart (p q : path) (new n n' : node) :
  Fs.apart p q = true ->
  Fs.place p new n = inr n' ->
  Fs.lookup q n' = Fs.lookup q n.
Proof.
  revert q n n'. induction p as [|k p IH]; intros q n n' Hap H;
    destruct q as [|k' q]; cbn in Hap; try discriminate;
    destruct n as [x|es]; cbn in H; try discriminate.
  destruct (Fs.assoc k es) as [c|] eqn:E.
  - destruct (Fs.place p new c) as [e|c'] eqn:P; [discriminate|].
    injection H as <-. cbn.
    destruct (String.eqb k k') eqn:K.
    + apply String.eqb_eq in K; subst k'.
      rewrite assoc_map_first_same, E. cbn. eapply IH; eauto.
    + rewrite assoc_map_first_other; [reflexivity|].
      rewrite String.eqb_sym. exact K.
  - injection H as <-. cbn.
    destruct (String.eqb k k') eqn:K.
    + apply String.eqb_eq in K; subst k'.
      rewrite (assoc_app_none _ _ _ _ E), String.eqb_refl, E.
      apply lookup_chain_apart. exact Hap.
    + destruct (Fs.assoc k' es) as [c|] eqn:E'.
      * rewrite (assoc_app_some _ _ _ _ E'). reflexivity.
      * rewrite (assoc_app_none _ _ _ _ E'), String.eqb_sym, K. reflexivity.
Qed.

(** ** Where the computations write *)

Section Frames.
Context {A B : Type}.

Lemma touches_only_weaken (os os' : list path) (m : M A) :
  incl os os' -> touches_only os m -> touches_only os' m.
Proof. intros I H s q Hq. apply H. intros o Ho. apply Hq, I, Ho. Qed.

Lemma touches_only_ret (os : list path) (a : A) : touches_only os (ret a).
Proof. intros s q _. reflexivity. Qed.

Lemma touches_only_raise (os : list path) (e : exn) :
  touches_only os (@raise A e).
Proof. intros s q _. reflexivity. Qed.

Lemma touches_only_bind (os : list path) (m : M A) (k : A -> M B) :
  touches_only os m -> (forall a, touches_only os (k a)) ->
  touches_only os (bind m k).
Proof.
  intros Hm Hk s q Hq. unfold bind.
  specialize (Hm s q Hq). destruct (m s) as [[e|a] s1]; cbn in *.
  - exact Hm.
  - rewrite <- Hm. apply Hk. exact Hq.
Qed.

Lemma touches_only_finally (os : list path) (m : M A) (c : M unit) :
  touches_only os m -> touches_only os c -> touches_only os (finally m c).
Proof.
  intros Hm Hc s q Hq. unfold finally.
  specialize (Hm s q Hq). destruct (m s) as [r s1]; cbn in *.
  specialize (Hc s1 q Hq). destruct (c s1) as [[e|u] s2]; cbn in *; congruence.
Qed.

End Frames.

Lemma touches_only_for_each {A : Type} (os : list path) (l : list A)
    (body : A -> M unit) :
  (forall x, In x l -> touches_only os (body x)) ->
  touches_only os (for_each l body).
Proof.
  induction l as [|x l IH]; intros H; cbn.
  - apply touches_only_ret.
  - apply touches_only_bind; [apply H; left; reflexivity|].
    intros _. apply IH. intros y Hy. apply H. right. exact Hy.
Qed.

Lemma touches_only_record (os : list path) (c : call) : touches_only os (record c).
Proof. intros s q _. reflexivity. Qed.

Lemma touches_only_get_fs (os : list path) : touches_only os get_fs.
Proof. intros s q _. reflexivity. Qed.

Lemma touches_only_validate_path (os : list path) (p : path) (d : bool) :
  touches_only os (validate_path p d).
Proof. intros s q _. rewrite validate_path_run. reflexivity. Qed.

Lemma touches_only_exists (os : list path) (p : path) :
  touches_only os (os_path_exists p).
Proof. intros s q _. reflexivity. Qed.

Lemma touches_only_rmtree (p : path) : touches_only [p] (shutil_rmtree p).
Proof.
  intros s q Hq. specialize (Hq p (or_introl eq_refl)).
  unfold shutil_rmtree. unfold_monad.
  destruct (Fs.lookup p (fs s)) as [[x|es]|]; cbn; try reflexivity.
  apply lookup_remove_apart. exact Hq.
Qed.

Lemma touches_only_copytree (src dst : path) :
  touches_only [dst] (shutil_copytree src dst).
Proof.
  intros s q Hq. specialize (Hq dst (or_introl eq_refl)).
  unfold shutil_copytree. unfold_monad.
  destruct (Fs.lookup src (fs s)) as [[x|es]|]; cbn; try reflexivity.
  destruct (Fs.copies_into_itself src dst (fs s)).
  - destruct (Fs.place dst (Dir []) (fs s)) as [[|]|n'] eqn:P; cbn;
      try reflexivity.
    eapply lookup_place_apart; eauto.
  - destruct (Fs.place dst (Dir es) (fs s)) as [[|]|n'] eqn:P; cbn;
      try reflexivity.
    eapply lookup_place_apart; eauto.
Qed.

Lemma touches_only_zip_open (p : path) : touches_only [p] (zip_open p).
Proof.
  intros s q Hq. specialize (Hq p (or_introl eq_refl)).
  unfold zip_open. unfold_monad.
  destruct (Fs.lookup p (fs s)) as [[x|es]|]; cbn; try reflexivity;
    destruct (Fs.split_last p) as [[d b]|]; cbn; try reflexivity;
    destruct (Fs.lookup d (fs s)) as [[y|es']|]; cbn; try reflexivity;
    apply lookup_put_apart; exact Hq.
Qed.

Lemma touches_only_zip_write (os : list path) (src : path) (a : string) :
  touches_only os (zip_write src a).
Proof.
  intros s q _. unfold zip_write. unfold_monad.
  destruct (Fs.lookup src (fs s)) as [[x|es]|]; reflexivity.
Qed.

Lemma touches_only_zip_close (p : path) : touches_only [p] (zip_close p).
Proof.
  intros s q Hq. specialize (Hq p (or_introl eq_refl)).
  unfold zip_close. unfold_monad.
  destruct (myzip s); cbn; [|reflexivity].
  apply lookup_put_apart. exact Hq.
Qed.

Lemma touches_only_os_walk (os : list path) (p : path) :
  touches_only os (os_walk p).
Proof.
  intros s q _. unfold os_walk. unfold_monad.
  destruct (Fs.lookup p (fs s)) as [[x|es]|]; reflexivity.
Qed.

Lemma touches_only_process_plugin (mode : string) (src out : path) (P : string) :
  touches_only (plugin_outputs mode out P) (process_plugin mode src out P).
Proof.
  unfold process_plugin, plugin_outputs, get_build_output_path, print.
  apply touches_only_bind; [apply touches_only_validate_path|intros _].
  apply touches_only_bind.
  { apply touches_only_bind; [apply touches_only_validate_path|intros _].
    apply touches_only_ret. }
  intros b.
  destruct (String.eqb mode "copy").
  - apply touches_only_bind; [apply touches_only_exists|intros e].
    apply touches_only_bind.
    { destruct e; [apply touches_only_rmtree|apply touches_only_ret]. }
    intros _. apply touches_only_bind; [apply touches_only_record|intros _].
    apply touches_only_copytree.
  - destruct (String.eqb mode "pack").
    + apply touches_only_bind; [apply touches_only_zip_open|intros _].
      apply touches_only_finally; [|apply touches_only_zip_close].
      apply touches_only_bind; [apply touches_only_os_walk|intros files].
      apply touches_only_for_each. intros rf _. apply touches_only_zip_write.
    + apply touches_only_raise.
Qed.

(** ** The loop body, step by step *)

Lemma process_plugin_run (mode : string) (src out : path) (P : string) (s : state) :
  process_plugin mode src out P s =
  match validate_outcome (src ++ [P]) true (fs s) with
  | inl e => (inl e, after_validate (src ++ [P]) true s)
  | inr _ =>
      let s1 := after_validate (src ++ [P]) true s in
      match validate_outcome (build_output src P) true (fs s) with
      | inl e => (inl e, after_validate (build_output src P) true s1)
      | inr _ =>
          plugin_action mode (build_output src P) out P
            (after_validate (build_output src P) true s1)
      end
  end.
Proof.
  unfold process_plugin, get_build_output_path, plugin_action, build_output.
  unfold bind at 1. rewrite validate_path_run.
  destruct (validate_outcome (src ++ [P]) true (fs s)) as [e|[]]; [reflexivity|].
  unfold bind at 1. unfold bind at 1. rewrite validate_path_run. cbn [fs].
  destruct (validate_outcome _ true (fs s)) as [e|[]]; reflexivity.
Qed.

Lemma shutil_rmtree_run (p : path) (s : state) :
  shutil_rmtree p s =
  (fst (rmtree_result p (fs s)),
   mkState (snd (rmtree_result p (fs s))) (myzip s) (log s ++ [CRmtree p])).
Proof.
  unfold shutil_rmtree, rmtree_result. unfold_monad.
  destruct (Fs.lookup p (fs s)) as [[x|es]|]; reflexivity.
Qed.

Lemma shutil_copytree_run (src dst : path) (s : state) :
  shutil_copytree src dst s =
  (fst (copytree_result src dst (fs s)),
   mkState (snd (copytree_result src dst (fs s))) (myzip s)
           (log s ++ [CCopytree src dst])).
Proof.
  unfold shutil_copytree, copytree_result. unfold_monad.
  destruct (Fs.lookup src (fs s)) as [[x|es]|]; try reflexivity.
  destruct (Fs.copies_into_itself src dst (fs s)).
  - destruct (Fs.place dst (Dir []) (fs s)) as [[|]|n']; reflexivity.
  - destruct (Fs.place dst (Dir es) (fs s)) as [[|]|n']; reflexivity.
Qed.

Lemma copy_action_run (build out : path) (P : string) (s : state) :
  plugin_action "copy" build out P s =
  let dst := out ++ [P] in
  if Fs.exists_ dst (fs s) then
    match rmtree_result dst (fs s) with
    | (inl e, n1) =>
        (inl e, mkState n1 (myzip s) (log s ++ [CExists dst; CRmtree dst]))
    | (inr _, n1) =>
        (fst (copytree_result build dst n1),
         mkState (snd (copytree_result build dst n1)) (myzip s)
           (log s ++ [CExists dst; CRmtree dst; CPrint build dst;
                      CCopytree build dst]))
    end
  else
    (fst (copytree_result build dst (fs s)),
     mkState (snd (copytree_result build dst (fs s))) (myzip s)
       (log s ++ [CExists dst; CPrint build dst; CCopytree build dst])).
Proof.
  unfold plugin_action. cbn [String.eqb Ascii.eqb Bool.eqb]. cbn zeta.
  unfold os_path_exists, print. unfold bind at 1 2 3. unfold record at 1.
  unfold get_fs, ret. cbn [fs myzip log].
  destruct (Fs.exists_ (out ++ [P]) (fs s)).
  - unfold bind at 1 2. rewrite shutil_rmtree_run. cbn [fst snd fs myzip log].
    destruct (rmtree_result (out ++ [P]) (fs s)) as [[e|[]] n1]; cbn [fst snd].
    + rewrite <- app_assoc. reflexivity.
    + unfold bind, record. cbn [fs myzip log]. rewrite shutil_copytree_run.
      cbn [fs myzip log]. rewrite <- !app_assoc. reflexivity.
  - unfold bind, record. cbn [fs myzip log]. rewrite shutil_copytree_run.
    cbn [fs myzip log]. rewrite <- !app_assoc. reflexivity.
Qed.

Lemma copytree_result_ok (src dst : path) (n n' : node) (r : path) :
  copytree_result src dst n = (inr tt, n') ->
  Fs.lookup (dst ++ r) n' = Fs.lookup (src ++ r) n.
Proof.
  unfold copytree_result. rewrite (lookup_app src r n).
  destruct (Fs.lookup src n) as [[x|es]|]; try discriminate.
  destruct (Fs.copies_into_itself src dst n).
  - destruct (Fs.place dst (Dir []) n) as [[|]|?]; discriminate.
  - destruct (Fs.place dst (Dir es) n) as [[|]|n''] eqn:Pl; try discriminate.
    intros H. injection H as <-. eapply lookup_place_at. exact Pl.
Qed.

Lemma copy_action_ok (build out : path) (P : string) (s s' : state) :
  plugin_action "copy" build out P s = (inr tt, s') ->
  Fs.apart (out ++ [P]) build = true ->
  forall r, Fs.lookup ((out ++ [P]) ++ r) (fs s') = Fs.lookup (build ++ r) (fs s).
Proof.
  intros H Hap r. rewrite copy_action_run in H. cbn zeta in H.
  destruct (Fs.exists_ (out ++ [P]) (fs s)).
  - unfold rmtree_result in H.
    destruct (Fs.lookup (out ++ [P]) (fs s)) as [[x|es]|]; try discriminate.
    destruct (copytree_result build (out ++ [P]) (Fs.remove (out ++ [P]) (fs s)))
      as [res n'] eqn:C.
    cbn in H. injection H as -> <-. cbn.
    rewrite (copytree_result_ok _ _ _ _ r C).
    apply lookup_remove_apart. apply apart_app_r. exact Hap.
  - destruct (copytree_result build (out ++ [P]) (fs s)) as [res n'] eqn:C.
    cbn in H. injection H as -> <-. cbn.
    apply (copytree_result_ok _ _ _ _ r C).
Qed.

(** ** The loop and the whole run *)

Lemma touches_only_loop (mode : string) (src out : path) (ps : list string) :
  touches_only (flat_map (plugin_outputs mode out) ps)
               (for_each ps (process_plugin mode src out)).
Proof.
  apply touches_only_for_each. intros P HP.
  eapply touches_only_weaken; [|apply touches_only_process_plugin].
  intros o Ho. apply in_flat_map. exists P. split; assumption.
Qed.

Lemma main_run (abspath : string -> path) (argv : list string) (s : state) :
  List.length argv = 3 ->
  let out := abspath (nth 2 argv "") in
  let src := abspath "../src" in
  main abspath argv s =
  match validate_outcome out true (fs s) with
  | inl e => (inl e, after_validate out true s)
  | inr _ =>
      match validate_outcome src true (fs s) with
      | inl e => (inl e, after_validate src true (after_validate out true s))
      | inr _ =>
          for_each plugins (process_plugin (nth 1 argv "") src out)
            (after_validate src true (after_validate out true s))
      end
  end.
Proof.
  intros L. cbn zeta. unfold main. rewrite L. cbn [Nat.eqb negb].
  unfold bind at 1. rewrite validate_path_run.
  destruct (validate_outcome _ true (fs s)) as [e|[]]; [reflexivity|].
  unfold bind at 1. rewrite validate_path_run. cbn [fs].
  destruct (validate_outcome _ true (fs s)) as [e|[]]; reflexivity.
Qed.

Lemma touches_only_main (abspath : string -> path) (argv : list string) :
  touches_only (run_outputs (nth 1 argv "") (abspath (nth 2 argv "")))
               (main abspath argv).
Proof.
  unfold main.
  destruct (negb (Nat.eqb (List.length argv) 3)); [apply touches_only_raise|].
  apply touches_only_bind; [apply touches_only_validate_path|intros _].
  apply touches_only_bind; [apply touches_only_validate_path|intros _].
  apply touches_only_loop.
Qed.

Lemma process_plugin_copy_ok (src out : path) (P : string) (s s' : state) :
  process_plugin "copy" src out P s = (inr tt, s') ->
  Fs.apart (out ++ [P]) (build_output src P) = true ->
  forall r,
    Fs.lookup ((out ++ [P]) ++ r) (fs s') =
    Fs.lookup (build_output src P ++ r) (fs s).
Proof.
  intros H Hap r. rewrite process_plugin_run in H.
  destruct (validate_outcome (src ++ [P]) true (fs s)) as [e|[]]; [discriminate|].
  cbn zeta in H.
  destruct (validate_outcome (build_output src P) true (fs s)) as [e|[]];
    [discriminate|].
  apply (copy_action_ok _ _ _ _ _ H). exact Hap.
Qed.

Lemma copy_loop_ok (src out : path) (ps : list string) :
  forall s s',
    for_each ps (process_plugin "copy" src out) s = (inr tt, s') ->
    (forall Q Q', In Q ps -> In Q' ps ->
       Fs.apart (out ++ [Q]) (build_output src Q') = true) ->
    forall P r, In P ps ->
      Fs.lookup ((out ++ [P]) ++ r) (fs s') =
      Fs.lookup (build_output src P ++ r) (fs s).
Proof.
  induction ps as [|P0 ps IH]; intros s s' H Hap P r HP; [destruct HP|].
  cbn [for_each] in H. unfold bind in H.
  destruct (process_plugin "copy" src out P0 s) as [[e|[]] s1] eqn:Step;
    [discriminate|].
  assert (Fr : forall q, Fs.apart (out ++ [P0]) q = true ->
                         Fs.lookup q (fs s1) = Fs.lookup q (fs s)).
  { intros q Hq.
    pose proof (touches_only_process_plugin "copy" src out P0 s q) as T.
    rewrite Step in T. apply T. intros o [<-|[]]. exact Hq. }
  destruct (in_dec string_dec P ps) as [I|NI].
  - rewrite (IH s1 s' H
               (fun Q Q' HQ HQ' => Hap Q Q' (or_intror HQ) (or_intror HQ')) P r I).
    apply Fr. apply apart_app_r.
    apply Hap; [left; reflexivity|right; exact I].
  - destruct HP as [<-|HP]; [|contradiction].
    pose proof (touches_only_loop "copy" src out ps s1 ((out ++ [P0]) ++ r)) as T.
    rewrite H in T. cbn [snd] in T. rewrite T.
    + apply (process_plugin_copy_ok _ _ _ _ _ Step).
      apply Hap; left; reflexivity.
    + intros o Ho. apply in_flat_map in Ho. destruct Ho as (Q & HQ & [<-|[]]).
      apply apart_app_r. apply apart_siblings.
      destruct (String.eqb Q P0) eqn:E; [|reflexivity].
      apply String.eqb_eq in E. subst Q. contradiction.
Qed.

Lemma main_copy_tree (abspath : string -> path) (prog dest : string)
    (n : node) (s' : state) :
  let out := abspath dest in
  let src := abspath "../src" in
  (forall Q Q', In Q plugins -> In Q' plugins ->
     Fs.apart (out ++ [Q]) (build_output src Q') = true) ->
  main abspath [prog; "copy"; dest] (start n) = (inr tt, s') ->
  forall P r, In P plugins ->
    Fs.lookup ((out ++ [P]) ++ r) (fs s') =
    Fs.lookup (build_output src P ++ r) n.
Proof.
  intros out src Hap H P r HP.
  rewrite main_run in H by reflexivity. cbn [nth start fs] in H.
  destruct (validate_outcome (abspath dest) true n) as [e|[]]; [discriminate|].
  destruct (validate_outcome (abspath "../src") true n) as [e|[]]; [discriminate|].
  apply (copy_loop_ok _ _ _ _ _ H Hap P r HP).
Qed.

(** ** Copy mode *)

(** C3, as the script has it.  Provided no destination plugin
    directory lies inside or above a build output directory: after a
    successful run in copy mode, whatever the build output tree of a
    plugin [P] held before the run at a relative path [r] (a file
    with its bytes, or a directory with its contents) is found at the
    same relative path below [<destination>/P]. *)
Theorem copy_mode_copies_tree (abspath : string -> path) (prog dest : string)
    (n : node) (P : string) (r : path) (x : node) :
  let out := abspath dest in
  let src := abspath "../src" in
  let run := main abspath [prog; "copy"; dest] (start n) in
  (forall Q Q', In Q plugins -> In Q' plugins ->
     Fs.apart (out ++ [Q]) (build_output src Q') = true) ->
  fst run = inr tt ->
  In P plugins ->
  Fs.lookup (build_output src P ++ r) n = Some x ->
  Fs.lookup ((out ++ [P]) ++ r) (fs (snd run)) = Some x.
Proof.
  intros out src run Hap Hok HP Hx. rewrite <- Hx.
  apply main_copy_tree with (prog := prog); auto.
  subst run. destruct (main _ _ _) as [res s']. cbn in *. subst res. reflexivity.
Qed.

Lemma copy_mode_copies_tree_witness :
  Fs.lookup ["out"; "F95ZoneMetadata"; "sub"; "b.txt"]
    (fs (snd (main Sample.abspath ["build.py"; "copy"; "/out"]
                (start (Sample.disk (Dir []))))))
  = Some (File (Raw [x02])).
Proof.
  apply (copy_mode_copies_tree Sample.abspath "build.py" "/out"
           (Sample.disk (Dir [])) "F95ZoneMetadata" ["sub"; "b.txt"]).
  - intros Q Q' [<-|[<-|[]]] [<-|[<-|[]]]; reflexivity.
  - reflexivity.
  - left. reflexivity.
  - reflexivity.
Defined.

(** C3 as stated fails when the destination is the build output
    directory of [DLSiteMetadata]: the run succeeds, and the file
    [F95ZoneMetadata/old.dll] of that build output tree is not found
    below [<destination>/DLSiteMetadata], the step of the first plugin
    having replaced the directory [F95ZoneMetadata] before the tree
    was copied. *)
Lemma copy_mode_misses_replaced_file :
  let out := Sample.abspath Overlap.dest in
  let build := build_output (Sample.abspath "../src") "DLSiteMetadata" in
  let r := ["F95ZoneMetadata"; "old.dll"] in
  let run := main Sample.abspath ["build.py"; "copy"; Overlap.dest]
               (start Overlap.disk_old) in
  fst run = inr tt /\
  Fs.lookup (build ++ r) Overlap.disk_old = Some (File (Raw [x05])) /\
  Fs.lookup ((out ++ ["DLSiteMetadata"]) ++ r) (fs (snd run)) = None.
Proof. repeat split; reflexivity. Qed.

(** C4, as the script has it.  Provided no destination plugin
    directory lies inside or above a build output directory: after a
    successful run in copy mode a relative path that the build output
    tree of [P] did not have before the run is absent below
    [<destination>/P], whatever the old destination directory held
    there (the directory is replaced, not merged); and a copy step
    that finds [<destination>/P] existing and succeeds has made
    exactly these calls, in this order: the existence test,
    [shutil.rmtree] on [<destination>/P], the [print], and
    [shutil.copytree]. *)
Theorem copy_mode_replaces_destination (abspath : string -> path)
    (prog dest : string) (n : node) (P : string) (r : path) :
  let out := abspath dest in
  let src := abspath "../src" in
  let run := main abspath [prog; "copy"; dest] (start n) in
  (forall Q Q', In Q plugins -> In Q' plugins ->
     Fs.apart (out ++ [Q]) (build_output src Q') = true) ->
  fst run = inr tt ->
  In P plugins ->
  Fs.lookup (build_output src P ++ r) n = None ->
  Fs.lookup ((out ++ [P]) ++ r) (fs (snd run)) = None /\
  (forall s,
     Fs.exists_ (out ++ [P]) (fs s) = true ->
     let step := plugin_action "copy" (build_output src P) out P s in
     fst step = inr tt ->
     log (snd step) =
     log s ++ [CExists (out ++ [P]); CRmtree (out ++ [P]);
               CPrint (build_output src P) (out ++ [P]);
               CCopytree (build_output src P) (out ++ [P])]).
Proof.
  intros out src run Hap Hok HP Hx. split.
  - rewrite <- Hx.
    apply main_copy_tree with (prog := prog); auto.
    subst run. destruct (main _ _ _) as [res s']. cbn in *. subst res.
    reflexivity.
  - intros s E step. subst step. rewrite copy_action_run. cbn zeta. rewrite E.
    destruct (rmtree_result (out ++ [P]) (fs s)) as [[e|[]] n1];
      [discriminate|reflexivity].
Qed.

Lemma copy_mode_replaces_destination_witness :
  Fs.lookup ["out"; "F95ZoneMetadata"; "stale.txt"] (Sample.disk Sample.stale_out)
  = Some (File (Raw [x09])) /\
  Fs.lookup ["out"; "F95ZoneMetadata"; "stale.txt"]
    (fs (snd (main Sample.abspath ["build.py"; "copy"; "/out"]
                (start (Sample.disk Sample.stale_out)))))
  = None.
Proof.
  split; [reflexivity|].
  apply (copy_mode_replaces_destination Sample.abspath "build.py" "/out"
           (Sample.disk Sample.stale_out) "F95ZoneMetadata" ["stale.txt"]).
  - intros Q Q' [<-|[<-|[]]] [<-|[<-|[]]]; reflexivity.
  - reflexivity.
  - left. reflexivity.
  - reflexivity.
Defined.

(** C4 as stated fails when the destination is the build output
    directory of [DLSiteMetadata]: [<destination>/DLSiteMetadata]
    exists with a stale [F95ZoneMetadata/a.txt], the build output
    tree has nothing at [F95ZoneMetadata/a.txt], the run succeeds, and
    [<destination>/DLSiteMetadata/F95ZoneMetadata/a.txt] is there
    afterwards: the first plugin was copied into the build output
    tree before that tree was copied. *)
Lemma copy_mode_keeps_absent_path :
  let out := Sample.abspath Overlap.dest in
  let build := build_output (Sample.abspath "../src") "DLSiteMetadata" in
  let r := ["F95ZoneMetadata"; "a.txt"] in
  let run := main Sample.abspath ["build.py"; "copy"; Overlap.dest]
               (start Overlap.disk_stale) in
  fst run = inr tt /\
  Fs.lookup ((out ++ ["DLSiteMetadata"]) ++ r) Overlap.disk_stale
  = Some (File (Raw [x09])) /\
  Fs.lookup (build ++ r) Overlap.disk_stale = None /\
  Fs.lookup ((out ++ ["DLSiteMetadata"]) ++ r) (fs (snd run))
  = Some (File (Raw [x01])).
Proof. repeat split; reflexivity. Qed.

(** ** Arguments and mode *)

(** C6.  With any number of arguments other than two ([argv] of a
    length other than three) the run raises [ValueError] at once: the
    disk is not consulted and nothing is logged. *)
Theorem wrong_argument_count (abspath : string -> path) (argv : list string)
    (s : state) :
  List.length argv <> 3 ->
  main abspath argv s = (inl (ValueError "Not enough arguments!"), s).
Proof.
  intros H. unfold main.
  destruct (Nat.eqb (List.length argv) 3) eqn:E.
  - apply Nat.eqb_eq in E. contradiction.
  - reflexivity.
Qed.

Lemma wrong_argument_count_witness :
  main Sample.abspath ["build.py"; "copy"] (start (Sample.disk (Dir []))) =
  (inl (ValueError "Not enough arguments!"), start (Sample.disk (Dir []))).
Proof.
  apply wrong_argument_count. cbn. lia.
Defined.

Lemma validate_calls_queries (p : path) (d : bool) (n : node) :
  forallb is_query (validate_calls p d n) = true.
Proof.
  unfold validate_calls.
  destruct (negb (Fs.exists_ p n)); [reflexivity|]. destruct d; reflexivity.
Qed.

Lemma validate_outcome_ok_iff (p : path) (n : node) :
  validate_outcome p true n = inr tt <-> Fs.isdir p n = true.
Proof.
  split; [|apply validate_outcome_dir].
  unfold validate_outcome.
  destruct (Fs.exists_ p n); cbn; [|discriminate].
  destruct (Fs.isdir p n); cbn; [reflexivity|discriminate].
Qed.

Lemma validate_outcome_not_value_error (p : path) (d : bool) (n : node) (msg : string) :
  validate_outcome p d n <> inl (ValueError msg).
Proof.
  unfold validate_outcome.
  destruct (negb (Fs.exists_ p n)); [discriminate|].
  destruct (d && negb (Fs.isdir p n)); discriminate.
Qed.

Ltac unk_log :=
  eexists; split; [|reflexivity];
  cbn [after_validate start fs myzip log app];
  rewrite ?forallb_app, ?validate_calls_queries; reflexivity.

Lemma unknown_mode_run (abspath : string -> path) (argv : list string) (n : node) :
  let mode := nth 1 argv "" in
  let out := abspath (nth 2 argv "") in
  let src := abspath "../src" in
  let first := "F95ZoneMetadata" in
  List.length argv = 3 ->
  String.eqb mode "copy" = false -> String.eqb mode "pack" = false ->
  exists lg,
    forallb is_query lg = true /\
    main abspath argv (start n) =
    (match validate_outcome out true n with
     | inl e => inl e
     | inr _ =>
         match validate_outcome src true n with
         | inl e => inl e
         | inr _ =>
             match validate_outcome (src ++ [first]) true n with
             | inl e => inl e
             | inr _ =>
                 match validate_outcome (build_output src first) true n with
                 | inl e => inl e
                 | inr _ => inl (ValueError ("Unknown mode: " ++ mode))
                 end
             end
         end
     end, mkState n None lg).
Proof.
  intros mode out src first L Hc Hp.
  rewrite main_run by exact L. fold mode out src. cbn [start fs].
  destruct (validate_outcome out true n) as [e1|[]].
  { unk_log. }
  destruct (validate_outcome src true n) as [e2|[]].
  { unk_log. }
  unfold plugins. cbn [for_each]. unfold bind at 1.
  rewrite process_plugin_run. cbn [after_validate start fs myzip log app].
  fold first.
  destruct (validate_outcome (src ++ [first]) true n) as [e3|[]].
  { unk_log. }
  cbn zeta.
  destruct (validate_outcome (build_output src first) true n) as [e4|[]].
  { unk_log. }
  unfold plugin_action. rewrite Hc, Hp. unfold raise.
  unk_log.
Qed.

(** C1, as the script has it.  With two arguments and a mode that is
    neither [copy] nor [pack] the run always fails, leaves the disk as
    it was, and makes no call other than existence and directory
    tests.  These tests come first, in the order destination, source
    root, first plugin's directory, its build output directory: the
    error is that of the first of them that fails, and the
    unknown-mode [ValueError] exactly when all four are directories. *)
Theorem unknown_mode_fails_after_validation (abspath : string -> path)
    (argv : list string) (n : node) :
  let mode := nth 1 argv "" in
  let out := abspath (nth 2 argv "") in
  let src := abspath "../src" in
  let first := hd "" plugins in
  let run := main abspath argv (start n) in
  List.length argv = 3 ->
  mode <> "copy" -> mode <> "pack" ->
  fst run =
  inl (match first_failure
               [out; src; src ++ [first]; build_output src first] n with
       | Some e => e
       | None => ValueError ("Unknown mode: " ++ mode)
       end) /\
  fs (snd run) = n /\
  forallb is_query (log (snd run)) = true /\
  (fst run = inl (ValueError ("Unknown mode: " ++ mode)) <->
   Fs.isdir out n = true /\ Fs.isdir src n = true /\
   Fs.isdir (src ++ [first]) n = true /\
   Fs.isdir (build_output src first) n = true).
Proof.
  intros mode out src first run L Hc Hp. subst run.
  apply String.eqb_neq in Hc, Hp.
  destruct (unknown_mode_run abspath argv n L Hc Hp) as (lg & Q & ->).
  fold mode out src. change (hd "" plugins) with "F95ZoneMetadata" in first.
  fold first. cbn [fst snd fs log first_failure].
  pose proof (validate_outcome_ok_iff out n) as I1.
  pose proof (validate_outcome_ok_iff src n) as I2.
  pose proof (validate_outcome_ok_iff (src ++ [first]) n) as I3.
  pose proof (validate_outcome_ok_iff (build_output src first) n) as I4.
  pose proof (validate_outcome_not_value_error out true n ("Unknown mode: " ++ mode)) as V1.
  pose proof (validate_outcome_not_value_error src true n ("Unknown mode: " ++ mode)) as V2.
  pose proof (validate_outcome_not_value_error (src ++ [first]) true n ("Unknown mode: " ++ mode)) as V3.
  pose proof (validate_outcome_not_value_error (build_output src first) true n ("Unknown mode: " ++ mode)) as V4.
  split; [|split; [reflexivity|split; [exact Q|]]].
  - destruct (validate_outcome out true n) as [?|[]]; [reflexivity|].
    destruct (validate_outcome src true n) as [?|[]]; [reflexivity|].
    destruct (validate_outcome (src ++ [first]) true n) as [?|[]]; [reflexivity|].
    destruct (validate_outcome (build_output src first) true n) as [?|[]];
      reflexivity.
  - destruct (validate_outcome out true n) as [?|[]];
      [split; intros; [contradiction|exfalso; intuition congruence]|].
    destruct (validate_outcome src true n) as [?|[]];
      [split; intros; [contradiction|exfalso; intuition congruence]|].
    destruct (validate_outcome (src ++ [first]) true n) as [?|[]];
      [split; intros; [contradiction|exfalso; intuition congruence]|].
    destruct (validate_outcome (build_output src first) true n) as [?|[]];
      [split; intros; [contradiction|exfalso; intuition congruence]|].
    tauto.
Qed.

Lemma unknown_mode_fails_after_validation_witness :
  let disk := Sample.disk_with (Sample.plug Sample.tree1) (Dir [])
                (File (Raw [])) in
  let run := main Sample.abspath ["build.py"; "bogus"; "/out"] (start disk) in
  fst run = inl (NotADirectoryError ["out"]) /\
  fs (snd run) = disk.
Proof.
  destruct (unknown_mode_fails_after_validation Sample.abspath
              ["build.py"; "bogus"; "/out"]
              (Sample.disk_with (Sample.plug Sample.tree1) (Dir [])
                 (File (Raw []))))
    as (E & F & _ & _).
  - reflexivity.
  - cbn. discriminate.
  - cbn. discriminate.
  - split; [exact E|exact F].
Defined.

(** C1 as stated fails: with an unknown mode and a missing destination
    the error is [FileNotFoundError], not the unknown-mode error; and
    when the unknown-mode error is raised, eight path tests have been
    made before it. *)
Lemma unknown_mode_not_checked_first :
  let disk := Sample.disk (Dir []) in
  let run1 := main Sample.abspath ["build.py"; "bogus"; "/nowhere"] (start disk) in
  let run2 := main Sample.abspath ["build.py"; "bogus"; "/out"] (start disk) in
  fst run1 = inl (FileNotFoundError ["nowhere"]) /\
  log (snd run1) = [CExists ["nowhere"]] /\
  fst run2 = inl (ValueError "Unknown mode: bogus") /\
  List.length (log (snd run2)) = 8.
Proof. repeat split; reflexivity. Qed.

(** ** Where a run writes *)

Lemma run_outputs_below_destination (mode : string) (out o : path) :
  In o (run_outputs mode out) -> exists name, o = out ++ [name].
Proof.
  unfold run_outputs. intros H. apply in_flat_map in H.
  destruct H as (P & _ & H). unfold plugin_outputs in H.
  destruct (String.eqb mode "copy"); [destruct H as [<-|[]]; eauto|].
  destruct (String.eqb mode "pack"); [destruct H as [<-|[]]; eauto|].
  destruct H.
Qed.

(** C9, as the script has it.  Whatever the arguments and the outcome,
    a run changes the disk only at its output locations, which are
    direct children of the destination directory
    ([<destination>/P] in copy mode, [<destination>/P.zip] in pack
    mode): every path that parts ways with all of them reads after
    the run as it did before.  So the source root is left alone
    whenever no output location lies inside or above it. *)
Theorem run_writes_only_at_outputs (abspath : string -> path)
    (argv : list string) (n : node) (q : path) :
  let mode := nth 1 argv "" in
  let out := abspath (nth 2 argv "") in
  let run := main abspath argv (start n) in
  (forall o, In o (run_outputs mode out) -> Fs.apart o q = true) ->
  (forall o, In o (run_outputs mode out) -> exists name, o = out ++ [name]) /\
  Fs.lookup q (fs (snd run)) = Fs.lookup q n.
Proof.
  intros mode out run H. split.
  - intros o. apply run_outputs_below_destination.
  - apply (touches_only_main abspath argv (start n) q H).
Qed.

Lemma run_writes_only_at_outputs_witness :
  Fs.lookup ["repo"; "src"]
    (fs (snd (main Sample.abspath ["build.py"; "copy"; "/out"]
                (start (Sample.disk Sample.stale_out)))))
  = Fs.lookup ["repo"; "src"] (Sample.disk Sample.stale_out).
Proof.
  apply (run_writes_only_at_outputs Sample.abspath ["build.py"; "copy"; "/out"]
           (Sample.disk Sample.stale_out) ["repo"; "src"]).
  intros o [<-|[<-|[]]]; reflexivity.
Defined.

(** C9 as stated fails: with the source root itself as destination,
    copy mode deletes the first plugin's source directory (and then
    finds nothing to copy), and pack mode creates its archives inside
    the source root. *)
Lemma source_root_as_destination_is_modified :
  let disk := Sample.disk (Dir []) in
  let a_txt := ["repo"; "src"; "F95ZoneMetadata"; "bin"; "Debug"; "net462"; "a.txt"] in
  let zip := ["repo"; "src"; "F95ZoneMetadata.zip"] in
  let copy := main Sample.abspath ["build.py"; "copy"; "../src"] (start disk) in
  let pack := main Sample.abspath ["build.py"; "pack"; "../src"] (start disk) in
  Fs.lookup a_txt disk = Some (File (Raw [x01])) /\
  Fs.lookup a_txt (fs (snd copy)) = None /\
  Fs.lookup zip disk = None /\
  Fs.isfile zip (fs (snd pack)) = true.
Proof. repeat split; reflexivity. Qed.

(** ** A regular file in the place of a destination plugin directory *)

Lemma isfile_exists (p : path) (n : node) :
  Fs.isfile p n = true -> Fs.exists_ p n = true.
Proof.
  unfold Fs.isfile, Fs.exists_. destruct (Fs.lookup p n) as [[|]|]; congruence.
Qed.

Lemma process_plugin_copy_onto_file (src out : path) (P : string) (s : state) :
  Fs.isfile (out ++ [P]) (fs s) = true ->
  (exists e, fst (process_plugin "copy" src out P s) = inl e) /\
  fs (snd (process_plugin "copy" src out P s)) = fs s /\
  (Fs.isdir (src ++ [P]) (fs s) = true ->
   Fs.isdir (build_output src P) (fs s) = true ->
   fst (process_plugin "copy" src out P s) =
   inl (NotADirectoryError (out ++ [P]))).
Proof.
  intros F. rewrite process_plugin_run.
  pose proof (validate_outcome_ok_iff (src ++ [P]) (fs s)) as I1.
  pose proof (validate_outcome_ok_iff (build_output src P) (fs s)) as I2.
  destruct (validate_outcome (src ++ [P]) true (fs s)) as [e1|[]].
  { cbn. repeat split; eauto. intros D. apply I1 in D. discriminate. }
  cbn zeta.
  destruct (validate_outcome (build_output src P) true (fs s)) as [e2|[]].
  { cbn. repeat split; eauto. intros _ D. apply I2 in D. discriminate. }
  rewrite copy_action_run. cbn [after_validate fs myzip log]. cbn zeta.
  rewrite (isfile_exists _ _ F). unfold rmtree_result.
  unfold Fs.isfile in F.
  destruct (Fs.lookup (out ++ [P]) (fs s)) as [[d|es]|]; try discriminate.
  cbn. repeat split; eauto.
Qed.

Lemma copy_loop_onto_file (src out : path) (P : string) (ps : list string) :
  forall s,
    In P ps ->
    Fs.isfile (out ++ [P]) (fs s) = true ->
    (exists e, fst (for_each ps (process_plugin "copy" src out) s) = inl e) /\
    Fs.lookup (out ++ [P])
      (fs (snd (for_each ps (process_plugin "copy" src out) s)))
    = Fs.lookup (out ++ [P]) (fs s).
Proof.
  induction ps as [|P0 ps IH]; intros s HP F; [destruct HP|].
  cbn [for_each]. unfold bind.
  destruct (string_dec P0 P) as [->|NE].
  - destruct (process_plugin_copy_onto_file src out P s F) as ((e & E) & K & _).
    destruct (process_plugin "copy" src out P s) as [r s1]. cbn in E, K.
    subst r. cbn. rewrite K. eauto.
  - assert (Fr : Fs.lookup (out ++ [P])
                   (fs (snd (process_plugin "copy" src out P0 s)))
                 = Fs.lookup (out ++ [P]) (fs s)).
    { apply (touches_only_process_plugin "copy" src out P0 s).
      intros o [<-|[]]. apply apart_siblings.
      destruct (String.eqb P0 P) eqn:E; [|reflexivity].
      apply String.eqb_eq in E. contradiction. }
    destruct (process_plugin "copy" src out P0 s) as [[e|[]] s1]; cbn in Fr |- *.
    + split; [eauto|exact Fr].
    + destruct HP as [->|HP]; [contradiction|].
      assert (F1 : Fs.isfile (out ++ [P]) (fs s1) = true).
      { unfold Fs.isfile in *. rewrite Fr. exact F. }
      destruct (IH s1 HP F1) as (E & K). split; [exact E|].
      rewrite K. exact Fr.
Qed.

(** C8.  In copy mode, when [<destination>/P] is a regular file the
    run aborts with an error and the file is still there afterwards,
    not replaced.  When the turn of [P] comes with its plugin and
    build output directories in place, the error is the
    [NotADirectoryError] of the recursive delete. *)
Theorem copy_onto_regular_file_aborts (abspath : string -> path)
    (prog dest : string) (n : node) (P : string) :
  let out := abspath dest in
  let src := abspath "../src" in
  let run := main abspath [prog; "copy"; dest] (start n) in
  In P plugins ->
  Fs.isfile (out ++ [P]) n = true ->
  (exists e, fst run = inl e) /\
  Fs.lookup (out ++ [P]) (fs (snd run)) = Fs.lookup (out ++ [P]) n /\
  (forall s,
     Fs.isfile (out ++ [P]) (fs s) = true ->
     Fs.isdir (src ++ [P]) (fs s) = true ->
     Fs.isdir (build_output src P) (fs s) = true ->
     fst (process_plugin "copy" src out P s) =
     inl (NotADirectoryError (out ++ [P]))).
Proof.
  intros out src run HP F. subst run.
  rewrite main_run by reflexivity. cbn [nth start fs]. fold out src.
  split; [|split].
  - destruct (validate_outcome out true n) as [e|[]]; [cbn; eauto|].
    destruct (validate_outcome src true n) as [e|[]]; [cbn; eauto|].
    apply (copy_loop_onto_file src out P plugins
             (after_validate src true (after_validate out true (start n))));
      assumption.
  - destruct (validate_outcome out true n) as [e|[]]; [reflexivity|].
    destruct (validate_outcome src true n) as [e|[]]; [reflexivity|].
    apply (copy_loop_onto_file src out P plugins
             (after_validate src true (after_validate out true (start n))));
      assumption.
  - intros s Fs0 D1 D2.
    apply (process_plugin_copy_onto_file src out P s Fs0); assumption.
Qed.

Lemma copy_onto_regular_file_aborts_witness :
  let disk := Sample.disk (Dir [("DLSiteMetadata", File (Raw [x07]))]) in
  let run := main Sample.abspath ["build.py"; "copy"; "/out"] (start disk) in
  (exists e, fst run = inl e) /\
  Fs.lookup ["out"; "DLSiteMetadata"] (fs (snd run)) = Some (File (Raw [x07])).
Proof.
  destruct (copy_onto_regular_file_aborts Sample.abspath "build.py" "/out"
              (Sample.disk (Dir [("DLSiteMetadata", File (Raw [x07]))]))
              "DLSiteMetadata") as (E & K & _).
  - right. left. reflexivity.
  - reflexivity.
  - split; [exact E|exact K].
Defined.

(** ** A missing build output directory *)

Lemma for_each_app {A : Type} (l1 l2 : list A) (body : A -> M unit) (s : state) :
  for_each (l1 ++ l2) body s =
  match for_each l1 body s with
  | (inr _, s1) => for_each l2 body s1
  | (inl e, s1) => (inl e, s1)
  end.
Proof.
  revert s. induction l1 as [|x l1 IH]; intros s; cbn [app for_each].
  - reflexivity.
  - unfold bind. destruct (body x s) as [[e|[]] s1]; [reflexivity|].
    apply IH.
Qed.

Lemma process_plugin_missing_build (mode : string) (src out : path) (P : string)
    (s : state) :
  Fs.exists_ (build_output src P) (fs s) = false ->
  exists qs,
    forallb is_query qs = true /\
    process_plugin mode src out P s =
    (inl (if Fs.isfile (src ++ [P]) (fs s)
          then NotADirectoryError (src ++ [P])
          else if Fs.exists_ (src ++ [P]) (fs s)
               then FileNotFoundError (build_output src P)
               else FileNotFoundError (src ++ [P])),
     mkState (fs s) (myzip s) (log s ++ qs)).
Proof.
  intros E. rewrite process_plugin_run.
  assert (K : Fs.exists_ (src ++ [P]) (fs s) = true ->
              Fs.isdir (src ++ [P]) (fs s) = negb (Fs.isfile (src ++ [P]) (fs s))).
  { unfold Fs.isfile, Fs.exists_, Fs.isdir.
    destruct (Fs.lookup (src ++ [P]) (fs s)) as [[d|es]|]; cbn; congruence. }
  assert (K' : Fs.exists_ (src ++ [P]) (fs s) = false ->
               Fs.isfile (src ++ [P]) (fs s) = false).
  { unfold Fs.isfile, Fs.exists_.
    destruct (Fs.lookup (src ++ [P]) (fs s)) as [[d|es]|]; cbn; congruence. }
  unfold validate_outcome at 1.
  destruct (Fs.exists_ (src ++ [P]) (fs s)) eqn:X; cbn [negb].
  - rewrite (K eq_refl).
    destruct (Fs.isfile (src ++ [P]) (fs s)); cbn [andb negb].
    + exists (validate_calls (src ++ [P]) true (fs s)).
      split; [apply validate_calls_queries|reflexivity].
    + cbn zeta. unfold validate_outcome. rewrite E. cbn [negb].
      exists (validate_calls (src ++ [P]) true (fs s) ++
              validate_calls (build_output src P) true (fs s)).
      split.
      * rewrite forallb_app, !validate_calls_queries. reflexivity.
      * unfold after_validate. cbn [fs myzip log]. rewrite <- app_assoc.
        reflexivity.
  - rewrite (K' eq_refl).
    exists (validate_calls (src ++ [P]) true (fs s)).
    split; [apply validate_calls_queries|reflexivity].
Qed.

(** C5, as the script has it.  With two arguments, a valid destination
    and a valid source root, let the build output directory of plugin
    [P] not exist when the turn of [P] comes after the earlier plugins
    have been processed without error.  Then the run fails, and from
    that point on the disk stays as it is and only existence and
    directory tests are made: nothing is copied or packed for [P] or
    for any later plugin.  The error is [NotADirectoryError] when the
    plugin directory of [P] is a regular file, and otherwise
    [FileNotFoundError], for the plugin directory when that is missing
    and for the build output directory when it is not.  When an
    earlier plugin fails, the run ends there, with that error and in
    that state. *)
Theorem missing_build_output_aborts (abspath : string -> path)
    (argv : list string) (n : node) (pre post : list string) (P : string) :
  let mode := nth 1 argv "" in
  let out := abspath (nth 2 argv "") in
  let src := abspath "../src" in
  let before :=
    for_each pre (process_plugin mode src out)
      (after_validate src true (after_validate out true (start n))) in
  let run := main abspath argv (start n) in
  plugins = pre ++ P :: post ->
  List.length argv = 3 ->
  Fs.isdir out n = true ->
  Fs.isdir src n = true ->
  (fst before = inr tt ->
   Fs.exists_ (build_output src P) (fs (snd before)) = false ->
   fst run =
   inl (if Fs.isfile (src ++ [P]) (fs (snd before))
        then NotADirectoryError (src ++ [P])
        else if Fs.exists_ (src ++ [P]) (fs (snd before))
             then FileNotFoundError (build_output src P)
             else FileNotFoundError (src ++ [P])) /\
   fs (snd run) = fs (snd before) /\
   exists qs, forallb is_query qs = true /\
              log (snd run) = log (snd before) ++ qs) /\
  (forall e, fst before = inl e -> run = before).
Proof.
  intros mode out src before run Hpl L Do Ds. subst run.
  rewrite main_run by exact L. fold mode out src. cbn [start fs].
  rewrite (validate_outcome_dir _ _ Do), (validate_outcome_dir _ _ Ds).
  rewrite Hpl, for_each_app. fold before. split.
  - intros Hb E. destruct before as [r s1]. cbn [fst snd] in *. subst r.
    cbn [for_each]. unfold bind.
    destruct (process_plugin_missing_build mode src out P s1 E)
      as (qs & Q & ->).
    cbn [fst snd fs log]. split; [reflexivity|]. split; [reflexivity|]. eauto.
  - intros e Hb. destruct before as [r s1]. cbn [fst] in Hb. subst r.
    reflexivity.
Qed.

Lemma missing_build_output_aborts_witness :
  let disk := Sample.disk_with (Sample.plug Sample.tree1) (Dir []) (Dir []) in
  let run := main Sample.abspath ["build.py"; "copy"; "/out"] (start disk) in
  fst run = inl (FileNotFoundError
                   ["repo"; "src"; "DLSiteMetadata"; "bin"; "Debug"; "net462"]) /\
  Fs.lookup ["out"; "DLSiteMetadata"] (fs (snd run)) = None.
Proof.
  destruct (missing_build_output_aborts Sample.abspath
              ["build.py"; "copy"; "/out"]
              (Sample.disk_with (Sample.plug Sample.tree1) (Dir []) (Dir []))
              ["F95ZoneMetadata"] [] "DLSiteMetadata")
    as ((E & K & _) & _); try reflexivity.
  split; [exact E|].
  cbv zeta. rewrite K. reflexivity.
Defined.

(** C5 as stated fails: with the plugin directory of [DLSiteMetadata]
    a regular file (so that its build output directory does not
    exist) the error is [NotADirectoryError]; and with an unknown mode
    and the build output of the second plugin missing, the run fails
    at the first plugin with the unknown-mode [ValueError]. *)
Lemma missing_build_output_other_errors :
  let disk1 := Sample.disk_with (Sample.plug Sample.tree1) (File (Raw []))
                 (Dir []) in
  let disk2 := Sample.disk_with (Sample.plug Sample.tree1) (Dir []) (Dir []) in
  let build2 := ["repo"; "src"; "DLSiteMetadata"; "bin"; "Debug"; "net462"] in
  Fs.exists_ build2 disk1 = false /\
  fst (main Sample.abspath ["build.py"; "copy"; "/out"] (start disk1)) =
  inl (NotADirectoryError ["repo"; "src"; "DLSiteMetadata"]) /\
  Fs.exists_ build2 disk2 = false /\
  fst (main Sample.abspath ["build.py"; "bogus"; "/out"] (start disk2)) =
  inl (ValueError "Unknown mode: bogus").
Proof. repeat split; reflexivity. Qed.

(** ** Pack mode, step by step *)

Lemma zip_open_run (p : path) (s : state) :
  zip_open p s =
  match zip_open_result p (fs s) with
  | (inl e, _) => (inl e, mkState (fs s) (myzip s) (log s ++ [CZipOpen p]))
  | (inr _, n1) => (inr tt, mkState n1 (Some []) (log s ++ [CZipOpen p]))
  end.
Proof.
  unfold zip_open, zip_open_result. unfold_monad.
  destruct (Fs.lookup p (fs s)) as [[x|es]|]; try reflexivity;
    destruct (Fs.split_last p) as [[d b]|]; try reflexivity;
    destruct (Fs.lookup d (fs s)) as [[y|es']|]; reflexivity.
Qed.

Lemma zip_write_run (src : path) (a : string) (s : state) :
  zip_write src a s =
  let s1 := mkState (fs s) (myzip s) (log s ++ [CZipWrite src a]) in
  match Fs.lookup src (fs s) with
  | Some (File d) =>
      (inr tt,
       mkState (fs s)
         (match myzip s with Some ms => Some (ms ++ [(a, d)]) | None => None end)
         (log s ++ [CZipWrite src a]))
  | Some (Dir _) => (inl (IsADirectoryError src), s1)
  | None => (inl (FileNotFoundError src), s1)
  end.
Proof.
  unfold zip_write. unfold_monad.
  destruct (Fs.lookup src (fs s)) as [[d|es]|]; reflexivity.
Qed.

Lemma write_loop_run (files : list (path * string)) :
  forall s ms0,
    myzip s = Some ms0 ->
    exists lg,
      for_each files (fun rf => zip_write (fst rf ++ [snd rf]) (snd rf)) s =
      (match snd (zip_members (fs s) files) with
       | None => inr tt
       | Some e => inl e
       end,
       mkState (fs s) (Some (ms0 ++ fst (zip_members (fs s) files))) lg).
Proof.
  induction files as [|rf files IH]; intros s ms0 Hz; cbn [for_each zip_members].
  - exists (log s). unfold ret. cbn. rewrite app_nil_r, <- Hz.
    destruct s; reflexivity.
  - unfold bind. rewrite zip_write_run. cbn zeta.
    destruct (Fs.lookup (fst rf ++ [snd rf]) (fs s)) as [[d|es]|] eqn:E.
    + rewrite Hz.
      destruct (IH (mkState (fs s) (Some (ms0 ++ [(snd rf, d)]))
                      (log s ++ [CZipWrite (fst rf ++ [snd rf]) (snd rf)]))
                   (ms0 ++ [(snd rf, d)]) eq_refl) as (lg & R).
      rewrite R. cbn [fs fst snd]. exists lg.
      rewrite <- app_assoc. reflexivity.
    + eexists. cbn [fst snd]. rewrite app_nil_r, <- Hz. reflexivity.
    + eexists. cbn [fst snd]. rewrite app_nil_r, <- Hz. reflexivity.
Qed.

Lemma pack_action_run (build out : path) (P : string) (s : state) :
  let zp := out ++ [zip_name P] in
  exists lg,
    plugin_action "pack" build out P s =
    match zip_open_result zp (fs s) with
    | (inl e, _) => (inl e, mkState (fs s) (myzip s) lg)
    | (inr _, n1) =>
        let res := zip_members n1 (regular_files build n1) in
        (match snd res with None => inr tt | Some e => inl e end,
         mkState (Fs.put zp (File (Archive (fst res))) n1) None lg)
    end.
Proof.
  intros zp. unfold plugin_action. cbn [String.eqb Ascii.eqb Bool.eqb]. cbn zeta.
  fold (zip_name P). fold zp.
  unfold bind at 1. rewrite zip_open_run.
  destruct (zip_open_result zp (fs s)) as [[e|[]] n1]; [eexists; reflexivity|].
  unfold finally, os_walk. unfold bind at 1 2 3. unfold record at 1.
  unfold get_fs. cbn [fs myzip log].
  set (s1 := mkState n1 (Some []) ((log s ++ [CZipOpen zp]) ++ [CWalk build])).
  assert (W : (match Fs.lookup build n1 with
               | Some (Dir es) => ret (Fs.walk_node build (Dir es))
               | _ => ret []
               end) s1 = (inr (regular_files build n1), s1)).
  { unfold regular_files, ret.
    destruct (Fs.lookup build n1) as [[x|es]|]; reflexivity. }
  rewrite W.
  destruct (write_loop_run (regular_files build n1) s1 [] eq_refl) as (lg & R).
  rewrite R. cbn [fs app]. unfold zip_close. unfold_monad.
  eexists. reflexivity.
Qed.

(** ** What [os.walk] visits *)




(** ** Archive names *)

Lemma string_length_append (a b : string) :
  String.length (a ++ b) = String.length a + String.length b.
Proof. induction a as [|c a IH]; cbn; [reflexivity|]. rewrite IH. reflexivity. Qed.

Lemma string_append_inj_l (a b c : string) :
  (a ++ c)%string = (b ++ c)%string -> a = b.
Proof.
  revert b. induction a as [|x a IH]; intros [|y b] H; cbn in H.
  - reflexivity.
  - exfalso. apply (f_equal String.length) in H. cbn in H.
    rewrite string_length_append in H. lia.
  - exfalso. apply (f_equal String.length) in H. cbn in H.
    rewrite string_length_append in H. lia.
  - injection H as -> H. f_equal. apply IH. exact H.
Qed.

Lemma zip_name_inj (P Q : string) : zip_name P = zip_name Q -> P = Q.
Proof. apply string_append_inj_l. Qed.

Lemma zip_paths_apart (out : path) (P Q : string) :
  P <> Q -> Fs.apart (out ++ [zip_name Q]) (out ++ [zip_name P]) = true.
Proof.
  intros N. apply apart_siblings.
  destruct (String.eqb (zip_name Q) (zip_name P)) eqn:E; [|reflexivity].
  apply String.eqb_eq, zip_name_inj in E. congruence.
Qed.

(** ** Members of an archive *)





(** ** One plugin in pack mode *)

Lemma isdir_put_parent (d : path) (b : string) (x n : node) :
  Fs.isdir d n = true -> Fs.isdir d (Fs.put (d ++ [b]) x n) = true.
Proof.
  unfold Fs.isdir, Fs.put. rewrite split_last_snoc. intros H.
  destruct (Fs.lookup d n) as [[y|es]|] eqn:E; try discriminate.
  pose proof (lookup_update_dir_at d [] (Fs.set_entry b x) n es E) as K.
  rewrite app_nil_r in K. rewrite K. reflexivity.
Qed.

Lemma lookup_put_same (d : path) (b : string) (x n : node) :
  Fs.isdir d n = true -> Fs.lookup (d ++ [b]) (Fs.put (d ++ [b]) x n) = Some x.
Proof.
  intros H. pose proof (lookup_put_at d b [] x n H) as K.
  cbn [app] in K. exact K.
Qed.

(** Writing a regular file where no directory stands keeps every
    directory a directory. *)
Lemma isdir_put_file (d : path) (b : string) (x : data) :
  forall q n,
    Fs.isdir q n = true ->
    Fs.isdir (d ++ [b]) n = false ->
    Fs.isdir q (Fs.put (d ++ [b]) (File x) n) = true.
Proof.
  unfold Fs.put. rewrite split_last_snoc. unfold Fs.isdir.
  induction d as [|k0 d IH]; intros q n H H2; destruct n as [y|es];
    try exact H; destruct q as [|k q]; try reflexivity;
    cbn [app Fs.update_dir Fs.lookup] in *.
  - destruct (String.eqb k b) eqn:E.
    + apply String.eqb_eq in E. subst k. exfalso.
      destruct (Fs.assoc b es) as [[z|es']|]; try discriminate.
      destruct q; discriminate.
    + rewrite assoc_set_entry_other by exact E. exact H.
  - destruct (String.eqb k k0) eqn:E.
    + apply String.eqb_eq in E. subst k.
      rewrite assoc_map_first_same.
      destruct (Fs.assoc k0 es) as [c|]; [|discriminate]. cbn.
      apply IH; assumption.
    + rewrite assoc_map_first_other by exact E. exact H.
Qed.

Lemma isdir_put_same_file (d : path) (b : string) (x : data) (n : node) :
  Fs.isdir d n = true ->
  Fs.isdir (d ++ [b]) (Fs.put (d ++ [b]) (File x) n) = false.
Proof.
  intros H. unfold Fs.isdir. rewrite (lookup_put_same d b (File x) n H).
  reflexivity.
Qed.

Lemma zip_open_result_inv (d : path) (b : string) (n n1 : node) :
  zip_open_result (d ++ [b]) n = (inr tt, n1) ->
  Fs.isdir d n = true /\ n1 = Fs.put (d ++ [b]) (File (Raw [])) n.
Proof.
  unfold zip_open_result, Fs.isdir. rewrite split_last_snoc.
  destruct (Fs.lookup (d ++ [b]) n) as [[x|es]|]; try discriminate;
    destruct (Fs.lookup d n) as [[y|es']|]; try discriminate;
    intros H; injection H as <-; split; reflexivity.
Qed.





(** ** The loop in pack mode *)




Lemma isdir_agree (p : path) (n n' : node) :
  Fs.lookup p n' = Fs.lookup p n -> Fs.isdir p n' = Fs.isdir p n.
Proof. unfold Fs.isdir. intros ->. reflexivity. Qed.

(** ** Pack mode *)

Lemma main_pack_loop (abspath : string -> path) (prog dest : string) (n : node) :
  let out := abspath dest in
  let src := abspath "../src" in
  Fs.isdir out n = true ->
  Fs.isdir src n = true ->
  main abspath [prog; "pack"; dest] (start n) =
  for_each plugins (process_plugin "pack" src out)
    (after_validate src true (after_validate out true (start n))).
Proof.
  intros out src Do Ds. rewrite main_run by reflexivity.
  cbn [nth start fs]. fold out src.
  rewrite (validate_outcome_dir _ _ Do), (validate_outcome_dir _ _ Ds).
  reflexivity.
Qed.











(** * Further properties of the script *)

(** ** Resolving the build output directory *)

Lemma get_build_output_path_run (p : path) (s : state) :
  let result := p ++ ["bin"; configuration; target] in
  get_build_output_path p s =
  (match validate_outcome result true (fs s) with
   | inl e => inl e
   | inr _ => inr result
   end, after_validate result true s).
Proof.
  cbn zeta. unfold get_build_output_path. unfold bind. rewrite validate_path_run.
  destruct (validate_outcome _ true (fs s)) as [e|[]]; reflexivity.
Qed.

(** X1.  [get_build_output_path plugin_path] returns a path only when
    that path is [plugin_path/bin/Debug/net462] and an existing
    directory, and it does return it whenever that directory exists;
    otherwise it raises [FileNotFoundError] for a missing path and
    [NotADirectoryError] for one that is no directory.  The disk is
    left as it was. *)
Theorem get_build_output_path_spec (plugin_path : path) (s : state) :
  let result := plugin_path ++ ["bin"; "Debug"; "net462"] in
  let r := get_build_output_path plugin_path s in
  fs (snd r) = fs s /\
  (forall q, fst r = inr q -> q = result /\ Fs.isdir q (fs s) = true) /\
  (Fs.isdir result (fs s) = true -> fst r = inr result) /\
  (forall e, fst r = inl e ->
     e = if Fs.exists_ result (fs s) then NotADirectoryError result
         else FileNotFoundError result).
Proof.
  cbn zeta. rewrite get_build_output_path_run. cbn [fst snd after_validate fs].
  change (plugin_path ++ ["bin"; configuration; target])
    with (plugin_path ++ ["bin"; "Debug"; "net462"]).
  set (result := plugin_path ++ ["bin"; "Debug"; "net462"]).
  pose proof (validate_outcome_ok_iff result (fs s)) as I.
  unfold validate_outcome in *.
  destruct (Fs.exists_ result (fs s)) eqn:E, (Fs.isdir result (fs s)) eqn:D;
    cbn in *;
    (split; [reflexivity|]); (split; [|split]); intros; try congruence;
    try (exfalso; intuition congruence).
  injection H as <-. split; [reflexivity|exact D].
Qed.

(** ** The first two checks of [main] *)

(** X2.  With two arguments, a destination that is no directory ends
    the run at once, whatever the mode and whatever the state of the
    source root: the error is [FileNotFoundError] for a missing
    destination and [NotADirectoryError] for one that is a regular
    file, the disk is untouched and only the destination has been
    probed. *)
Theorem destination_checked_first (abspath : string -> path)
    (argv : list string) (n : node) :
  let out := abspath (nth 2 argv "") in
  List.length argv = 3 ->
  Fs.isdir out n = false ->
  main abspath argv (start n) =
  (inl (if Fs.exists_ out n then NotADirectoryError out
        else FileNotFoundError out),
   mkState n None (if Fs.exists_ out n then [CExists out; CIsDir out]
                   else [CExists out])).
Proof.
  intros out L D. rewrite main_run by exact L. fold out. cbn [start fs].
  unfold validate_outcome at 1, after_validate, validate_calls.
  cbn [fs myzip log start app].
  destruct (Fs.exists_ out n); cbn [negb andb]; [|reflexivity].
  rewrite D. reflexivity.
Qed.

Lemma destination_checked_first_witness :
  main Sample.abspath ["build.py"; "copy"; "/repo/scripts/nowhere"]
    (start (Sample.disk (Dir []))) =
  (inl (FileNotFoundError ["repo"; "scripts"; "nowhere"]),
   mkState (Sample.disk (Dir [])) None [CExists ["repo"; "scripts"; "nowhere"]]).
Proof.
  apply (destination_checked_first Sample.abspath
           ["build.py"; "copy"; "/repo/scripts/nowhere"] (Sample.disk (Dir []))).
  - reflexivity.
  - reflexivity.
Defined.

(** X3.  With two arguments and a valid destination, a source root
    [../src] that is no directory ends the run before any plugin is
    looked at, whatever the mode: the error names the source root, the
    disk is untouched, and only the destination and the source root
    have been probed. *)
Theorem source_root_checked_second (abspath : string -> path)
    (argv : list string) (n : node) :
  let out := abspath (nth 2 argv "") in
  let src := abspath "../src" in
  List.length argv = 3 ->
  Fs.isdir out n = true ->
  Fs.isdir src n = false ->
  main abspath argv (start n) =
  (inl (if Fs.exists_ src n then NotADirectoryError src
        else FileNotFoundError src),
   mkState n None
     ([CExists out; CIsDir out] ++
      (if Fs.exists_ src n then [CExists src; CIsDir src] else [CExists src]))).
Proof.
  intros out src L Do D. rewrite main_run by exact L. fold out src.
  cbn [start fs]. rewrite (validate_outcome_dir _ _ Do).
  unfold after_validate. cbn [fs myzip log start app].
  rewrite (validate_calls_dir _ _ Do).
  unfold validate_outcome, validate_calls.
  destruct (Fs.exists_ src n); cbn [negb andb]; [|reflexivity].
  rewrite D. reflexivity.
Qed.

Lemma source_root_checked_second_witness :
  main (Posix.abspath ["elsewhere"]) ["build.py"; "pack"; "/out"]
    (start (Sample.disk (Dir []))) =
  (inl (FileNotFoundError ["src"]),
   mkState (Sample.disk (Dir [])) None
     [CExists ["out"]; CIsDir ["out"]; CExists ["src"]]).
Proof.
  apply (source_root_checked_second (Posix.abspath ["elsewhere"])
           ["build.py"; "pack"; "/out"] (Sample.disk (Dir []))).
  - reflexivity.
  - reflexivity.
  - reflexivity.
Defined.

(** ** Copy mode goes through *)

Lemma apart_not_prefix (p q : path) :
  Fs.apart p q = true -> Fs.is_prefix q p = false.
Proof.
  revert q. induction p as [|k p IH]; intros [|k' q] H; cbn in H;
    try discriminate; cbn.
  rewrite (String.eqb_sym k' k).
  destruct (String.eqb k k'); [cbn; apply IH; exact H|reflexivity].
Qed.

Lemma lookup_remove_same (d : path) (b : string) (n : node) :
  Fs.lookup (d ++ [b]) (Fs.remove (d ++ [b]) n) = None.
Proof.
  unfold Fs.remove. rewrite split_last_snoc. revert n.
  induction d as [|k d IH]; intros [x|es]; cbn [app Fs.update_dir Fs.lookup];
    try reflexivity.
  - rewrite assoc_del_entry_same. reflexivity.
  - rewrite assoc_map_first_same.
    destruct (Fs.assoc k es) as [c|]; cbn; [apply IH|reflexivity].
Qed.

Lemma isdir_remove_parent (d : path) (b : string) (n : node) :
  Fs.isdir d n = true -> Fs.isdir d (Fs.remove (d ++ [b]) n) = true.
Proof.
  unfold Fs.isdir, Fs.remove. rewrite split_last_snoc. intros H.
  destruct (Fs.lookup d n) as [[y|es]|] eqn:E; try discriminate.
  pose proof (lookup_update_dir_at d [] (Fs.del_entry b) n es E) as K.
  rewrite app_nil_r in K. rewrite K. reflexivity.
Qed.

Lemma place_ok (d : path) (b : string) (new : node) :
  forall n,
    Fs.isdir d n = true ->
    Fs.lookup (d ++ [b]) n = None ->
    exists n', Fs.place (d ++ [b]) new n = inr n' /\ Fs.isdir d n' = true.
Proof.
  unfold Fs.isdir.
  induction d as [|k d IH]; intros [x|es] D L; cbn in D; try discriminate;
    cbn [app Fs.place Fs.lookup] in *.
  - destruct (Fs.assoc b es) as [c|]; [discriminate|]. eauto.
  - destruct (Fs.assoc k es) as [c|] eqn:E; [|discriminate].
    destruct (IH c D L) as (c' & -> & D').
    eexists. split; [reflexivity|]. cbn.
    rewrite assoc_map_first_same, E. cbn. exact D'.
Qed.

Lemma lookup_snoc_parent (d : path) (b : string) (n x : node) :
  Fs.lookup (d ++ [b]) n = Some x -> Fs.isdir d n = true.
Proof.
  unfold Fs.isdir. rewrite lookup_app.
  destruct (Fs.lookup d n) as [[y|es]|]; cbn; congruence.
Qed.

Lemma copies_into_itself_apart (src dst : path) (n : node) :
  Fs.apart dst src = true -> Fs.copies_into_itself src dst n = false.
Proof.
  intros H. unfold Fs.copies_into_itself.
  rewrite (apart_not_prefix _ _ H).
  destruct (skipn (List.length src) dst) as [|k [|k' l]]; reflexivity.
Qed.

(** One plugin copied: the step succeeds and the destination plugin
    directory is the build output tree. *)
Lemma copy_step_succeeds (src out : path) (P : string) (s : state) :
  Fs.isdir (src ++ [P]) (fs s) = true ->
  Fs.isdir (build_output src P) (fs s) = true ->
  Fs.isdir out (fs s) = true ->
  Fs.isfile (out ++ [P]) (fs s) = false ->
  Fs.apart (out ++ [P]) (build_output src P) = true ->
  fst (process_plugin "copy" src out P s) = inr tt /\
  Fs.isdir out (fs (snd (process_plugin "copy" src out P s))) = true /\
  Fs.isdir (out ++ [P]) (fs (snd (process_plugin "copy" src out P s))) = true.
Proof.
  intros D1 D2 Do F Hap. rewrite process_plugin_run.
  rewrite (validate_outcome_dir _ _ D1). cbn zeta.
  rewrite (validate_outcome_dir _ _ D2).
  rewrite copy_action_run. cbn zeta. cbn [after_validate fs myzip log].
  set (build := build_output src P) in *. set (dst := out ++ [P]) in *.
  assert (K : forall n1,
            Fs.isdir out n1 = true ->
            Fs.lookup dst n1 = None ->
            Fs.lookup build n1 = Fs.lookup build (fs s) ->
            fst (copytree_result build dst n1) = inr tt /\
            Fs.isdir out (snd (copytree_result build dst n1)) = true /\
            Fs.isdir dst (snd (copytree_result build dst n1)) = true).
  { intros n1 Do1 L1 E1. unfold copytree_result. rewrite E1.
    unfold Fs.isdir in D2.
    destruct (Fs.lookup build (fs s)) as [[x|es]|]; try discriminate.
    rewrite (copies_into_itself_apart build dst n1 Hap).
    destruct (place_ok out P (Dir es) n1 Do1 L1) as (n' & Pl & Do').
    fold dst in Pl. rewrite Pl. cbn [fst snd].
    split; [reflexivity|]. split; [exact Do'|].
    unfold Fs.isdir.
    pose proof (lookup_place_at dst [] (Dir es) n1 n' Pl) as X.
    rewrite app_nil_r in X. rewrite X. reflexivity. }
  destruct (Fs.exists_ dst (fs s)) eqn:X.
  - unfold rmtree_result. unfold Fs.isfile, Fs.exists_ in F, X.
    destruct (Fs.lookup dst (fs s)) as [[x|es]|]; try discriminate.
    cbn [fst snd fs]. apply K.
    + apply isdir_remove_parent. exact Do.
    + apply lookup_remove_same.
    + apply lookup_remove_apart. exact Hap.
  - cbn [fst snd fs]. apply K; [exact Do| |reflexivity].
    unfold Fs.exists_ in X. destruct (Fs.lookup dst (fs s)); [discriminate|].
    reflexivity.
Qed.

Lemma copy_step_frame (src out : path) (P : string) (s : state) (q : path) :
  Fs.apart (out ++ [P]) q = true ->
  Fs.lookup q (fs (snd (process_plugin "copy" src out P s))) = Fs.lookup q (fs s).
Proof.
  intros H. apply (touches_only_process_plugin "copy" src out P s q).
  intros o [<-|[]]. exact H.
Qed.

Lemma isfile_agree (p : path) (n n' : node) :
  Fs.lookup p n' = Fs.lookup p n -> Fs.isfile p n' = Fs.isfile p n.
Proof. unfold Fs.isfile. intros ->. reflexivity. Qed.

Lemma isdir_not_isfile (p : path) (n : node) :
  Fs.isdir p n = true -> Fs.isfile p n = false.
Proof.
  unfold Fs.isdir, Fs.isfile. destruct (Fs.lookup p n) as [[x|es]|]; congruence.
Qed.

Lemma copy_loop_succeeds (src out : path) (ps : list string) :
  forall s,
    Fs.isdir out (fs s) = true ->
    (forall Q, In Q ps ->
       Fs.isdir (src ++ [Q]) (fs s) = true /\
       Fs.isdir (build_output src Q) (fs s) = true /\
       Fs.isfile (out ++ [Q]) (fs s) = false) ->
    (forall Q, In Q ps -> Fs.apart (out ++ [Q]) src = true) ->
    fst (for_each ps (process_plugin "copy" src out) s) = inr tt.
Proof.
  induction ps as [|P0 ps IH]; intros s Do H Hap; [reflexivity|].
  cbn [for_each]. unfold bind.
  destruct (H P0 (or_introl eq_refl)) as (D1 & D2 & F).
  assert (A0 : Fs.apart (out ++ [P0]) src = true) by (apply Hap; left; reflexivity).
  destruct (copy_step_succeeds src out P0 s D1 D2 Do F) as (R & Do1 & Dd).
  { unfold build_output. do 2 apply apart_app_r. exact A0. }
  pose proof (copy_step_frame src out P0 s) as Fr.
  destruct (process_plugin "copy" src out P0 s) as [r s1]. cbn [fst snd] in *.
  subst r. apply IH.
  - exact Do1.
  - intros Q HQ. destruct (H Q (or_intror HQ)) as (E1 & E2 & E3).
    rewrite (isdir_agree _ _ _ (Fr (src ++ [Q]) (apart_app_r _ _ _ A0))).
    assert (A2 : Fs.apart (out ++ [P0]) (build_output src Q) = true).
    { unfold build_output. do 2 apply apart_app_r. exact A0. }
    rewrite (isdir_agree _ _ _ (Fr _ A2)).
    split; [exact E1|]. split; [exact E2|].
    destruct (string_dec Q P0) as [->|NE].
    + apply isdir_not_isfile. exact Dd.
    + assert (N : String.eqb P0 Q = false).
      { destruct (String.eqb P0 Q) eqn:E; [|reflexivity].
        apply String.eqb_eq in E. congruence. }
      rewrite (isfile_agree _ _ _ (Fr (out ++ [Q]) (apart_siblings out P0 Q N))).
      exact E3.
  - intros Q HQ. apply Hap. right. exact HQ.
Qed.

Lemma result_ok_pair {A : Type} (x : (exn + unit) * A) :
  fst x = inr tt -> x = (inr tt, snd x).
Proof. destruct x as [r a]. cbn. intros ->. reflexivity. Qed.

Lemma apart_src_build (out src : path) (Q Q' : string) :
  Fs.apart (out ++ [Q]) src = true ->
  Fs.apart (out ++ [Q]) (build_output src Q') = true.
Proof. intros H. unfold build_output. do 2 apply apart_app_r. exact H. Qed.

Lemma main_copy_loop (abspath : string -> path) (prog dest : string) (n : node) :
  let out := abspath dest in
  let src := abspath "../src" in
  Fs.isdir out n = true ->
  Fs.isdir src n = true ->
  main abspath [prog; "copy"; dest] (start n) =
  for_each plugins (process_plugin "copy" src out)
    (after_validate src true (after_validate out true (start n))).
Proof.
  intros out src Do Ds. rewrite main_run by reflexivity.
  cbn [nth start fs]. fold out src.
  rewrite (validate_outcome_dir _ _ Do), (validate_outcome_dir _ _ Ds).
  reflexivity.
Qed.



Lemma copy_loop_inv (src out : path) (ps : list string) :
  forall s s',
    for_each ps (process_plugin "copy" src out) s = (inr tt, s') ->
    (forall Q, In Q ps -> Fs.apart (out ++ [Q]) src = true) ->
    forall P, In P ps ->
      Fs.isdir (src ++ [P]) (fs s) = true /\
      Fs.isdir (build_output src P) (fs s) = true.
Proof.
  induction ps as [|P0 ps IH]; intros s s' H Hap P HP; [destruct HP|].
  cbn [for_each] in H. unfold bind in H.
  pose proof (copy_step_frame src out P0 s) as Fr.
  destruct (process_plugin "copy" src out P0 s) as [[e|[]] s1] eqn:Step;
    [discriminate|]. cbn [snd] in Fr.
  destruct HP as [<-|HP].
  - rewrite process_plugin_run in Step.
    pose proof (validate_outcome_ok_iff (src ++ [P0]) (fs s)) as I1.
    pose proof (validate_outcome_ok_iff (build_output src P0) (fs s)) as I2.
    destruct (validate_outcome (src ++ [P0]) true (fs s)) as [e|[]];
      [discriminate|]. cbn zeta in Step.
    destruct (validate_outcome (build_output src P0) true (fs s)) as [e|[]];
      [discriminate|].
    split; [apply I1|apply I2]; reflexivity.
  - destruct (IH s1 s' H (fun Q HQ => Hap Q (or_intror HQ)) P HP) as (E1 & E2).
    assert (A0 : Fs.apart (out ++ [P0]) src = true) by (apply Hap; left; reflexivity).
    rewrite <- (isdir_agree _ _ _ (Fr (src ++ [P]) (apart_app_r _ _ _ A0))).
    rewrite <- (isdir_agree _ _ _ (Fr _ (apart_src_build out src P0 P A0))).
    split; assumption.
Qed.

Lemma copy_outputs (out o : path) :
  In o (run_outputs "copy" out) -> exists Q, In Q plugins /\ o = out ++ [Q].
Proof.
  unfold run_outputs. intros H. apply in_flat_map in H.
  destruct H as (Q & HQ & [<-|[]]). eauto.
Qed.

(** X5.  Running copy mode a second time after a successful run
    succeeds again and leaves every [<destination>/P] as the first run
    left it.  The destination plugin directories are taken to lie
    neither inside nor above the source root. *)
Theorem copy_mode_rerun (abspath : string -> path) (prog dest : string)
    (n : node) :
  let out := abspath dest in
  let src := abspath "../src" in
  let run1 := main abspath [prog; "copy"; dest] (start n) in
  let run2 := main abspath [prog; "copy"; dest] (start (fs (snd run1))) in
  (forall Q, In Q plugins -> Fs.apart (out ++ [Q]) src = true) ->
  fst run1 = inr tt ->
  fst run2 = inr tt /\
  forall P, In P plugins ->
    Fs.lookup (out ++ [P]) (fs (snd run2)) =
    Fs.lookup (out ++ [P]) (fs (snd run1)).
Proof.
  intros out src run1 run2 Hap S1.
  assert (Hab : forall Q Q', In Q plugins -> In Q' plugins ->
            Fs.apart (out ++ [Q]) (build_output src Q') = true).
  { intros Q Q' HQ _. apply apart_src_build. apply Hap. exact HQ. }
  (* what the first run found *)
  assert (V : Fs.isdir out n = true /\ Fs.isdir src n = true /\
              forall P, In P plugins ->
                Fs.isdir (src ++ [P]) n = true /\
                Fs.isdir (build_output src P) n = true).
  { subst run1. rewrite main_run in S1 by reflexivity.
    cbn [nth start fs] in S1. fold out src in S1.
    pose proof (validate_outcome_ok_iff out n) as I1.
    pose proof (validate_outcome_ok_iff src n) as I2.
    destruct (validate_outcome out true n) as [e|[]]; [discriminate|].
    destruct (validate_outcome src true n) as [e|[]]; [discriminate|].
    split; [apply I1; reflexivity|]. split; [apply I2; reflexivity|].
    intros P HP.
    destruct (for_each plugins (process_plugin "copy" src out)
                (after_validate src true (after_validate out true (start n))))
      as [r s'] eqn:R.
    cbn in S1. subst r.
    apply (copy_loop_inv src out plugins _ _ R Hap P HP). }
  destruct V as (Do & Ds & Vp).
  (* the disk after the first run *)
  set (n1 := fs (snd run1)) in *.
  assert (T1 : forall P r, In P plugins ->
            Fs.lookup ((out ++ [P]) ++ r) n1 =
            Fs.lookup (build_output src P ++ r) n).
  { intros P r HP. apply (main_copy_tree abspath prog dest n (snd run1) Hab);
      [|exact HP].
    subst run1. destruct (main _ _ _) as [r0 s']. cbn in S1 |- *. subst r0.
    reflexivity. }
  assert (Fr : forall q,
            (forall Q, In Q plugins -> Fs.apart (out ++ [Q]) q = true) ->
            Fs.lookup q n1 = Fs.lookup q n).
  { intros q Hq.
    apply (touches_only_main abspath [prog; "copy"; dest] (start n) q).
    cbn [nth]. fold out. intros o Ho.
    destruct (copy_outputs out o Ho) as (Q & HQ & ->). apply Hq. exact HQ. }
  assert (Fs1 : forall r, Fs.lookup (src ++ r) n1 = Fs.lookup (src ++ r) n).
  { intros r. apply Fr.
    intros Q HQ. apply apart_app_r. apply Hap. exact HQ. }
  assert (Dd : forall P, In P plugins -> Fs.isdir (out ++ [P]) n1 = true).
  { intros P HP. unfold Fs.isdir.
    pose proof (T1 P [] HP) as X. rewrite !app_nil_r in X. rewrite X.
    apply (Vp P HP). }
  assert (Do1 : Fs.isdir out n1 = true).
  { pose proof (Dd "F95ZoneMetadata" (or_introl eq_refl)) as X.
    unfold Fs.isdir in X.
    destruct (Fs.lookup (out ++ ["F95ZoneMetadata"]) n1) as [x|] eqn:L;
      [|discriminate].
    apply (lookup_snoc_parent out "F95ZoneMetadata" n1 x L). }
  assert (Ds1 : Fs.isdir src n1 = true).
  { pose proof (Fs1 []) as X. rewrite app_nil_r in X.
    rewrite (isdir_agree _ _ _ X). exact Ds. }
  assert (S2 : fst run2 = inr tt).
  { subst run2. rewrite (main_copy_loop abspath prog dest n1 Do1 Ds1).
    apply copy_loop_succeeds; [exact Do1| |exact Hap].
    intros Q HQ. destruct (Vp Q HQ) as (E1 & E2).
    cbn [after_validate start fs]. fold out src. unfold build_output in *.
    rewrite (isdir_agree _ _ _ (Fs1 [Q])).
    rewrite <- app_assoc. rewrite (isdir_agree _ _ _ (Fs1 _)).
    rewrite app_assoc.
    split; [exact E1|]. split; [exact E2|].
    apply isdir_not_isfile. apply Dd. exact HQ. }
  split; [exact S2|]. intros P HP.
  pose proof (main_copy_tree abspath prog dest n1 (snd run2) Hab) as T2.
  cbn zeta in T2. fold out src in T2.
  assert (R2 : main abspath [prog; "copy"; dest] (start n1) = (inr tt, snd run2))
    by (apply result_ok_pair; exact S2).
  specialize (T2 R2 P [] HP). rewrite !app_nil_r in T2. rewrite T2.
  pose proof (T1 P [] HP) as X1. rewrite !app_nil_r in X1. rewrite X1.
  unfold build_output. rewrite <- app_assoc. apply Fs1.
Qed.

Lemma copy_mode_rerun_witness :
  let run1 := main Sample.abspath ["build.py"; "copy"; "/out"]
                (start (Sample.disk (Dir []))) in
  let run2 := main Sample.abspath ["build.py"; "copy"; "/out"]
                (start (fs (snd run1))) in
  fst run2 = inr tt /\
  Fs.lookup ["out"; "DLSiteMetadata"] (fs (snd run2)) =
  Fs.lookup ["out"; "DLSiteMetadata"] (fs (snd run1)).
Proof.
  destruct (copy_mode_rerun Sample.abspath "build.py" "/out"
              (Sample.disk (Dir []))) as (S & T).
  - intros Q [<-|[<-|[]]]; reflexivity.
  - reflexivity.
  - split; [exact S|]. apply (T "DLSiteMetadata"). right. left. reflexivity.
Defined.

(** X6.  In copy mode the copy of a plugin, once made, is final: when
    the plugins [pre] have been processed without error, every
    [<destination>/P] with [P] in [pre] holds the build output tree of
    [P] at the end of the run, whether the remaining plugins succeed
    or the run fails on one of them.  No destination plugin directory
    of [pre] is taken to lie inside or above a build output directory
    of [pre]. *)
Theorem copied_plugins_keep_their_copy (abspath : string -> path)
    (prog dest : string) (n : node) (pre rest : list string)
    (P : string) (r : path) :
  let out := abspath dest in
  let src := abspath "../src" in
  let before :=
    for_each pre (process_plugin "copy" src out)
      (after_validate src true (after_validate out true (start n))) in
  let run := main abspath [prog; "copy"; dest] (start n) in
  plugins = pre ++ rest ->
  Fs.isdir out n = true ->
  Fs.isdir src n = true ->
  fst before = inr tt ->
  In P pre ->
  ~ In P rest ->
  (forall Q Q', In Q pre -> In Q' pre ->
     Fs.apart (out ++ [Q]) (build_output src Q') = true) ->
  Fs.lookup ((out ++ [P]) ++ r) (fs (snd run)) =
  Fs.lookup (build_output src P ++ r) n.
Proof.
  intros out src before run Hpl Do Ds Hb HP NP Hap. subst run.
  rewrite (main_copy_loop abspath prog dest n Do Ds). fold out src.
  rewrite Hpl, for_each_app. fold before.
  pose proof (result_ok_pair before Hb) as R. rewrite R. cbv beta iota.
  pose proof (touches_only_loop "copy" src out rest (snd before)
                ((out ++ [P]) ++ r)) as T.
  rewrite T.
  - rewrite (copy_loop_ok src out pre _ _ R Hap P r HP). reflexivity.
  - intros o Ho. apply in_flat_map in Ho. destruct Ho as (Q & HQ & [<-|[]]).
    apply apart_app_r. apply apart_siblings.
    destruct (String.eqb Q P) eqn:E; [|reflexivity].
    apply String.eqb_eq in E. subst Q. contradiction.
Qed.

Lemma copied_plugins_keep_their_copy_witness :
  let disk := Sample.disk_with (Sample.plug Sample.tree1) (Dir []) (Dir []) in
  let run := main Sample.abspath ["build.py"; "copy"; "/out"] (start disk) in
  fst run = inl (FileNotFoundError
                   ["repo"; "src"; "DLSiteMetadata"; "bin"; "Debug"; "net462"]) /\
  Fs.lookup ["out"; "F95ZoneMetadata"; "a.txt"] (fs (snd run))
  = Some (File (Raw [x01])).
Proof.
  split; [reflexivity|].
  apply (copied_plugins_keep_their_copy Sample.abspath "build.py" "/out"
           (Sample.disk_with (Sample.plug Sample.tree1) (Dir []) (Dir []))
           ["F95ZoneMetadata"] ["DLSiteMetadata"] "F95ZoneMetadata" ["a.txt"]).
  - reflexivity.
  - reflexivity.
  - reflexivity.
  - reflexivity.
  - left. reflexivity.
  - intros [H|[]]. discriminate H.
  - intros Q Q' [<-|[]] [<-|[]]. reflexivity.
Defined.

(** ** Pack mode removes nothing *)

Lemma keeps_entries_refl (n : node) : keeps_entries n n.
Proof. intros q. split; auto. Qed.

Lemma keeps_entries_trans (n1 n2 n3 : node) :
  keeps_entries n1 n2 -> keeps_entries n2 n3 -> keeps_entries n1 n3.
Proof.
  intros H1 H2 q. destruct (H1 q) as (A & B), (H2 q) as (C & D). split; auto.
Qed.

(** Writing a regular file where no directory stands keeps every
    regular file a regular file. *)
Lemma isfile_put_file (d : path) (b : string) (x : data) :
  forall q n,
    Fs.isfile q n = true ->
    Fs.isdir (d ++ [b]) n = false ->
    Fs.isfile q (Fs.put (d ++ [b]) (File x) n) = true.
Proof.
  unfold Fs.put. rewrite split_last_snoc. unfold Fs.isfile, Fs.isdir.
  induction d as [|k0 d IH]; intros q n H H2; destruct n as [y|es];
    try exact H; destruct q as [|k q]; try discriminate;
    cbn [app Fs.update_dir Fs.lookup] in *.
  - destruct (String.eqb k b) eqn:E.
    + apply String.eqb_eq in E. subst k. rewrite assoc_set_entry_same.
      destruct (Fs.assoc b es) as [[z|es']|]; try discriminate.
      destruct q; [reflexivity|discriminate].
    + rewrite assoc_set_entry_other by exact E. exact H.
  - destruct (String.eqb k k0) eqn:E.
    + apply String.eqb_eq in E. subst k.
      rewrite assoc_map_first_same.
      destruct (Fs.assoc k0 es) as [c|]; [|discriminate]. cbn.
      apply IH; assumption.
    + rewrite assoc_map_first_other by exact E. exact H.
Qed.

Lemma keeps_entries_put_file (d : path) (b : string) (x : data) (n : node) :
  Fs.isdir (d ++ [b]) n = false ->
  keeps_entries n (Fs.put (d ++ [b]) (File x) n).
Proof.
  intros H q. split; intros K.
  - apply isdir_put_file; assumption.
  - apply isfile_put_file; assumption.
Qed.

Lemma zip_open_result_cases (d : path) (b : string) (n : node) :
  (exists e, zip_open_result (d ++ [b]) n = (inl e, n)) \/
  (zip_open_result (d ++ [b]) n = (inr tt, Fs.put (d ++ [b]) (File (Raw [])) n) /\
   Fs.isdir d n = true /\ Fs.isdir (d ++ [b]) n = false).
Proof.
  unfold zip_open_result, Fs.isdir. rewrite split_last_snoc.
  destruct (Fs.lookup (d ++ [b]) n) as [[x|es]|]; eauto;
    destruct (Fs.lookup d n) as [[y|es']|]; eauto.
Qed.

(** The disk after the pack step of one plugin: as before, or with
    the archive written in the place of no directory. *)
Lemma pack_step_disk (src out : path) (P : string) (s : state) :
  let zp := out ++ [zip_name P] in
  fs (snd (process_plugin "pack" src out P s)) = fs s \/
  (exists ms,
     fs (snd (process_plugin "pack" src out P s)) =
     Fs.put zp (File (Archive ms)) (Fs.put zp (File (Raw [])) (fs s)) /\
     Fs.isdir out (fs s) = true /\ Fs.isdir zp (fs s) = false).
Proof.
  intros zp. rewrite process_plugin_run.
  destruct (validate_outcome (src ++ [P]) true (fs s)) as [e|[]];
    [left; reflexivity|]. cbn zeta.
  destruct (validate_outcome (build_output src P) true (fs s)) as [e|[]];
    [left; reflexivity|].
  destruct (pack_action_run (build_output src P) out P
              (after_validate (build_output src P) true
                 (after_validate (src ++ [P]) true s))) as (lg & R).
  rewrite R. cbn [after_validate fs myzip log].
  destruct (zip_open_result_cases out (zip_name P) (fs s))
    as [(e & Z)|(Z & Do & Dz)]; rewrite Z.
  - left. reflexivity.
  - right. eexists. split; [reflexivity|]. split; assumption.
Qed.

Lemma pack_step_keeps_entries (src out : path) (P : string) (s : state) :
  keeps_entries (fs s) (fs (snd (process_plugin "pack" src out P s))).
Proof.
  destruct (pack_step_disk src out P s) as [->|(ms & -> & Do & Dz)].
  - apply keeps_entries_refl.
  - eapply keeps_entries_trans.
    + apply keeps_entries_put_file. exact Dz.
    + apply keeps_entries_put_file. apply isdir_put_same_file. exact Do.
Qed.

Lemma pack_loop_keeps_entries (src out : path) (ps : list string) :
  forall s,
    keeps_entries (fs s) (fs (snd (for_each ps (process_plugin "pack" src out) s))).
Proof.
  induction ps as [|P0 ps IH]; intros s; cbn [for_each].
  - apply keeps_entries_refl.
  - unfold bind. pose proof (pack_step_keeps_entries src out P0 s) as K.
    destruct (process_plugin "pack" src out P0 s) as [[e|[]] s1]; cbn [snd] in *.
    + exact K.
    + eapply keeps_entries_trans; [exact K|apply IH].
Qed.

(** X7.  Pack mode removes nothing: whatever the disk and the outcome
    of the run, every directory that existed before the run is a
    directory after it, and every regular file is still a regular
    file. *)
Theorem pack_mode_never_removes (abspath : string -> path) (prog dest : string)
    (n : node) :
  keeps_entries n (fs (snd (main abspath [prog; "pack"; dest] (start n)))).
Proof.
  rewrite main_run by reflexivity. cbn [nth start fs].
  destruct (validate_outcome (abspath dest) true n) as [e|[]];
    [apply keeps_entries_refl|].
  destruct (validate_outcome (abspath "../src") true n) as [e|[]];
    [apply keeps_entries_refl|].
  apply (pack_loop_keeps_entries (abspath "../src") (abspath dest) plugins
           (after_validate (abspath "../src") true
              (after_validate (abspath dest) true (start n)))).
Qed.

(** ** Archives left by pack mode *)

Lemma pack_step_archive (src out : path) (P0 P : string) (s : state) :
  let zp := out ++ [zip_name P] in
  Fs.lookup zp (fs (snd (process_plugin "pack" src out P0 s))) =
  Fs.lookup zp (fs s) \/
  exists ms,
    Fs.lookup zp (fs (snd (process_plugin "pack" src out P0 s))) =
    Some (File (Archive ms)).
Proof.
  intros zp. destruct (pack_step_disk src out P0 s) as [->|(ms & -> & Do & Dz)];
    [left; reflexivity|].
  destruct (string_dec P0 P) as [->|NE].
  - right. exists ms. apply lookup_put_same. apply isdir_put_parent. exact Do.
  - left. unfold zp.
    rewrite !lookup_put_apart by (apply zip_paths_apart; congruence).
    reflexivity.
Qed.

Lemma pack_loop_archive (src out : path) (P : string) (ps : list string) :
  forall s,
    let zp := out ++ [zip_name P] in
    Fs.lookup zp (fs (snd (for_each ps (process_plugin "pack" src out) s))) =
    Fs.lookup zp (fs s) \/
    exists ms,
      Fs.lookup zp (fs (snd (for_each ps (process_plugin "pack" src out) s))) =
      Some (File (Archive ms)).
Proof.
  induction ps as [|P0 ps IH]; intros s zp; cbn [for_each].
  - left. reflexivity.
  - unfold bind. pose proof (pack_step_archive src out P0 P s) as K.
    destruct (process_plugin "pack" src out P0 s) as [[e|[]] s1]; cbn [snd] in *.
    + exact K.
    + destruct (IH s1) as [E|(ms & E)].
      * fold zp in E. rewrite E. exact K.
      * right. exists ms. exact E.
Qed.

(** X9.  Whatever the disk and the outcome of a run in pack mode,
    [<destination>/P.zip] is after the run either exactly what it was
    before the run or a closed zip archive: the [with] block closes
    the archive on every exit.  Which members a closed archive holds
    is not stated. *)
Theorem pack_mode_leaves_whole_archives (abspath : string -> path)
    (prog dest : string) (n : node) (P : string) :
  let zp := abspath dest ++ [zip_name P] in
  let run := main abspath [prog; "pack"; dest] (start n) in
  Fs.lookup zp (fs (snd run)) = Fs.lookup zp n \/
  exists ms, Fs.lookup zp (fs (snd run)) = Some (File (Archive ms)).
Proof.
  cbn zeta. rewrite main_run by reflexivity. cbn [nth start fs].
  destruct (validate_outcome (abspath dest) true n) as [e|[]];
    [left; reflexivity|].
  destruct (validate_outcome (abspath "../src") true n) as [e|[]];
    [left; reflexivity|].
  apply (pack_loop_archive (abspath "../src") (abspath dest) P plugins
           (after_validate (abspath "../src") true
              (after_validate (abspath dest) true (start n)))).
Qed.

(** ** Every file reaches the archive *)








(** ** Decoding UTF-8 *)

Section Utf8Facts.
Import Utf8.
Local Open Scope N_scope.

Lemma in_range_true (lo hi n : N) :
  in_range lo hi n = true -> lo <= n <= hi.
Proof.
  unfold in_range. intros H. apply andb_prop in H. destruct H as (A & B).
  apply N.leb_le in A, B. split; assumption.
Qed.

Lemma in_range_intro (lo hi n : N) :
  lo <= n <= hi -> in_range lo hi n = true.
Proof.
  intros (A & B). unfold in_range. apply andb_true_intro.
  split; apply N.leb_le; assumption.
Qed.

Lemma to_N_inj (a b : byte) :
  Strings.Byte.to_N a = Strings.Byte.to_N b -> a = b.
Proof.
  intros H. pose proof (Strings.Byte.of_to_N a) as A.
  rewrite H, Strings.Byte.of_to_N in A. congruence.
Qed.

Ltac range_facts :=
  repeat match goal with
  | H : (_ && _)%bool = true |- _ =>
      apply andb_prop in H; destruct H
  | H : in_range _ _ _ = true |- _ => apply in_range_true in H
  | H : is_continuation _ = true |- _ =>
      unfold is_continuation in H; apply in_range_true in H
  | H : N.ltb _ _ = true |- _ => apply N.ltb_lt in H
  | H : N.ltb _ _ = false |- _ => apply N.ltb_ge in H
  | H : N.eqb _ _ = true |- _ => apply N.eqb_eq in H
  | H : N.eqb _ _ = false |- _ => apply N.eqb_neq in H
  end.

Lemma decode_one_inv (bs : list byte) (c : N) (k : nat) :
  decode_one bs = Some (c, k) ->
  (k = 1%nat /\ one_byte bs c) \/ (k = 2%nat /\ two_bytes bs c) \/
  (k = 3%nat /\ three_bytes bs c) \/ (k = 4%nat /\ four_bytes bs c).
Proof.
  unfold decode_one. destruct bs as [|b0 r0]; [discriminate|].
  cbv zeta. set (n0 := Strings.Byte.to_N b0).
  destruct (N.ltb n0 0x80) eqn:C1.
  { intros H. injection H as <- <-. left. split; [reflexivity|].
    exists b0, r0. range_facts. cbv zeta. fold n0. auto. }
  destruct (N.ltb n0 0xC2) eqn:C2; [discriminate|].
  destruct (N.ltb n0 0xE0) eqn:C3.
  { destruct r0 as [|b1 r1]; [discriminate|].
    destruct (is_continuation b1) eqn:K1; [|discriminate].
    intros H. injection H as <- <-. right. left. split; [reflexivity|].
    exists b0, b1, r1. range_facts. cbv zeta. fold n0. unfold payload.
    repeat split; try reflexivity; lia. }
  destruct (N.ltb n0 0xF0) eqn:C4.
  { destruct r0 as [|b1 [|b2 r2]]; try discriminate.
    destruct (in_range _ _ (Strings.Byte.to_N b1) && is_continuation b2)%bool
      eqn:K; [|discriminate].
    intros H. injection H as <- <-. right. right. left. split; [reflexivity|].
    exists b0, b1, b2, r2. cbv zeta. fold n0. unfold payload.
    destruct (N.eqb n0 0xE0) eqn:E0; destruct (N.eqb n0 0xED) eqn:ED;
      range_facts; repeat split; try reflexivity; lia. }
  destruct (N.ltb n0 0xF5) eqn:C5; [|discriminate].
  destruct r0 as [|b1 [|b2 [|b3 r3]]]; try discriminate.
  destruct (in_range _ _ (Strings.Byte.to_N b1) && is_continuation b2
            && is_continuation b3)%bool eqn:K; [|discriminate].
  intros H. injection H as <- <-. right. right. right. split; [reflexivity|].
  exists b0, b1, b2, b3, r3. cbv zeta. fold n0. unfold payload.
  destruct (N.eqb n0 0xF0) eqn:E0; destruct (N.eqb n0 0xF4) eqn:E4;
    range_facts; repeat split; try reflexivity; lia.
Qed.

Ltac ltb_cases :=
  repeat match goal with
  | |- context [N.ltb ?a ?b] => destruct (N.ltb_spec a b); try lia
  end.

Lemma one_byte_decodes (bs : list byte) (c : N) :
  one_byte bs c -> decode_one bs = Some (c, 1%nat).
Proof.
  intros (b0 & r & -> & H & ->). cbv zeta in H.
  unfold decode_one. cbv zeta. ltb_cases. reflexivity.
Qed.

Lemma two_bytes_decode (bs : list byte) (c : N) :
  two_bytes bs c -> decode_one bs = Some (c, 2%nat).
Proof.
  intros (b0 & b1 & r & -> & H0 & H1 & ->). cbv zeta in *.
  unfold decode_one. cbv zeta. ltb_cases.
  unfold is_continuation. rewrite in_range_intro by exact H1. reflexivity.
Qed.

Lemma three_bytes_decode (bs : list byte) (c : N) :
  three_bytes bs c -> decode_one bs = Some (c, 3%nat).
Proof.
  intros (b0 & b1 & b2 & r & -> & H0 & H1 & H2 & L & U & ->). cbv zeta in *.
  unfold decode_one. cbv zeta. ltb_cases.
  unfold is_continuation. rewrite (in_range_intro _ _ _ H2).
  rewrite in_range_intro; [reflexivity|].
  destruct (N.eqb_spec (Strings.Byte.to_N b0) 0xE0);
    destruct (N.eqb_spec (Strings.Byte.to_N b0) 0xED); lia.
Qed.

Lemma four_bytes_decode (bs : list byte) (c : N) :
  four_bytes bs c -> decode_one bs = Some (c, 4%nat).
Proof.
  intros (b0 & b1 & b2 & b3 & r & -> & H0 & H1 & H2 & H3 & L & U & ->).
  cbv zeta in *.
  unfold decode_one. cbv zeta. ltb_cases.
  unfold is_continuation.
  rewrite (in_range_intro _ _ _ H2), (in_range_intro _ _ _ H3).
  rewrite in_range_intro; [reflexivity|].
  destruct (N.eqb_spec (Strings.Byte.to_N b0) 0xF0);
    destruct (N.eqb_spec (Strings.Byte.to_N b0) 0xF4); lia.
Qed.

(** A code point is decoded from its own bytes alone. *)
Lemma decode_one_app (bs more : list byte) (c : N) (k : nat) :
  decode_one bs = Some (c, k) -> decode_one (bs ++ more) = Some (c, k).
Proof.
  intros H. apply decode_one_inv in H.
  destruct H as [(-> & H)|[(-> & H)|[(-> & H)|(-> & H)]]].
  - apply one_byte_decodes. destruct H as (b0 & r & -> & H).
    exists b0, (r ++ more)%list. split; [reflexivity|exact H].
  - apply two_bytes_decode. destruct H as (b0 & b1 & r & -> & H).
    exists b0, b1, (r ++ more)%list. split; [reflexivity|exact H].
  - apply three_bytes_decode. destruct H as (b0 & b1 & b2 & r & -> & H).
    exists b0, b1, b2, (r ++ more)%list. split; [reflexivity|exact H].
  - apply four_bytes_decode. destruct H as (b0 & b1 & b2 & b3 & r & -> & H).
    exists b0, b1, b2, b3, (r ++ more)%list. split; [reflexivity|exact H].
Qed.

Lemma decode_one_bounds (bs : list byte) (c : N) (k : nat) :
  decode_one bs = Some (c, k) ->
  (1 <= k <= 4)%nat /\ (k <= List.length bs)%nat /\ scalar c.
Proof.
  intros H. apply decode_one_inv in H. unfold scalar.
  destruct H as [(-> & H)|[(-> & H)|[(-> & H)|(-> & H)]]].
  - destruct H as (b0 & r & -> & H & ->). cbv zeta in H. cbn [List.length].
    repeat split; lia.
  - destruct H as (b0 & b1 & r & -> & H0 & H1 & ->). cbv zeta in *.
    cbn [List.length]. repeat split; lia.
  - destruct H as (b0 & b1 & b2 & r & -> & H0 & H1 & H2 & L & U & ->).
    cbv zeta in *. cbn [List.length].
    assert (Strings.Byte.to_N b0 = 0xED \/ Strings.Byte.to_N b0 < 0xED \/
            0xED < Strings.Byte.to_N b0) as [E|[E|E]] by lia;
      repeat split; try lia.
  - destruct H as (b0 & b1 & b2 & b3 & r & -> & H0 & H1 & H2 & H3 & L & U & ->).
    cbv zeta in *. cbn [List.length].
    assert (Strings.Byte.to_N b0 = 0xF4 \/ Strings.Byte.to_N b0 < 0xF4) as [E|E]
      by lia; repeat split; lia.
Qed.

(** A code point has one encoding only. *)
Lemma decode_one_inj (a b : list byte) (c : N) (k k' : nat) :
  decode_one a = Some (c, k) ->
  decode_one b = Some (c, k') ->
  k = k' /\ firstn k a = firstn k b.
Proof.
  intros Ha Hb. apply decode_one_inv in Ha, Hb.
  destruct Ha as [(-> & Ha)|[(-> & Ha)|[(-> & Ha)|(-> & Ha)]]];
  destruct Hb as [(-> & Hb)|[(-> & Hb)|[(-> & Hb)|(-> & Hb)]]];
  unfold one_byte, two_bytes, three_bytes, four_bytes in Ha, Hb;
  cbv zeta in Ha, Hb;
  repeat match goal with
  | H : exists _, _ |- _ => destruct H as (? & H)
  | H : _ /\ _ |- _ => destruct H as (? & H)
  end; subst;
  try (exfalso;
       repeat match goal with
       | x : byte |- _ =>
           pose proof (Strings.Byte.to_N_bounded x); revert x
       end; intros;
       assert (forall x y : N, x <= y -> y <= x -> False -> False) as _
         by (intros; assumption);
       lia);
  (split; [reflexivity|]); cbn [firstn];
  repeat match goal with
  | |- _ :: _ = _ :: _ => f_equal
  end; try reflexivity; apply to_N_inj; lia.
Qed.

(** *** The loop *)

Lemma skipn_length_lt (k : nat) (bs : list byte) :
  (1 <= k)%nat -> bs <> [] ->
  (List.length (skipn k bs) < List.length bs)%nat.
Proof.
  intros K NE. rewrite length_skipn. destruct bs; [contradiction|].
  cbn [List.length]. lia.
Qed.

Lemma decode_loop_fuel (fuel : nat) :
  forall fuel' bs,
    (List.length bs <= fuel)%nat -> (List.length bs <= fuel')%nat ->
    decode_loop fuel bs = decode_loop fuel' bs.
Proof.
  induction fuel as [|fuel IH]; intros fuel' bs L L'.
  - destruct bs; [|cbn in L; lia]. destruct fuel'; reflexivity.
  - destruct bs as [|b0 r]; [destruct fuel'; reflexivity|].
    destruct fuel' as [|fuel']; [cbn in L'; lia|].
    cbn [decode_loop].
    destruct (decode_one (b0 :: r)) as [[c k]|] eqn:D; [|reflexivity].
    destruct (decode_one_bounds _ _ _ D) as ((K1 & _) & _ & _).
    assert (X : (List.length (skipn k (b0 :: r)) < List.length (b0 :: r))%nat)
      by (apply skipn_length_lt; [exact K1|discriminate]).
    rewrite (IH fuel'); [reflexivity| |]; cbn [List.length] in *; lia.
Qed.

Lemma decode_loop_scalar (fuel : nat) :
  forall bs t, decode_loop fuel bs = Some t -> Forall scalar t.
Proof.
  induction fuel as [|fuel IH]; intros bs t H; destruct bs as [|b0 r];
    cbn [decode_loop] in H; try discriminate;
    try (injection H as <-; constructor).
  destruct (decode_one (b0 :: r)) as [[c k]|] eqn:D; [|discriminate].
  destruct (decode_loop fuel (skipn k (b0 :: r))) as [t'|] eqn:R;
    [|discriminate].
  cbn in H. injection H as <-. constructor.
  - apply (decode_one_bounds _ _ _ D).
  - apply (IH _ _ R).
Qed.

Lemma decode_loop_app (fuel : nat) :
  forall a b x,
    (List.length a <= fuel)%nat ->
    decode_loop fuel a = Some x ->
    decode_loop (List.length (a ++ b)) (a ++ b) =
    option_map (app x) (decode_loop (List.length b) b).
Proof.
  induction fuel as [|fuel IH]; intros a b x L H.
  - destruct a; [|cbn in L; lia]. cbn in H. injection H as <-. cbn [app].
    destruct (decode_loop _ b); reflexivity.
  - destruct a as [|a0 r].
    { cbn in H. injection H as <-. cbn [app].
      destruct (decode_loop _ b); reflexivity. }
    cbn [decode_loop] in H.
    destruct (decode_one (a0 :: r)) as [[c k]|] eqn:D; [|discriminate].
    destruct (decode_loop fuel (skipn k (a0 :: r))) as [t'|] eqn:R;
      [|discriminate].
    cbn in H. injection H as <-.
    destruct (decode_one_bounds _ _ _ D) as ((K1 & _) & K2 & _).
    change ((a0 :: r) ++ b)%list with (a0 :: (r ++ b))%list.
    cbn [List.length decode_loop].
    change (a0 :: (r ++ b))%list with ((a0 :: r) ++ b)%list.
    rewrite (decode_one_app _ b _ _ D).
    rewrite skipn_app.
    replace (k - List.length (a0 :: r))%nat with 0%nat by lia.
    cbn [skipn].
    assert (X : (List.length (skipn k (a0 :: r)) < List.length (a0 :: r))%nat)
      by (apply skipn_length_lt; [exact K1|discriminate]).
    rewrite (decode_loop_fuel _ (List.length (skipn k (a0 :: r) ++ b)));
      [| |lia].
    + rewrite (IH _ b t'); [|cbn [List.length] in *; lia|exact R].
      destruct (decode_loop (List.length b) b); reflexivity.
    + rewrite !length_app in *. cbn [List.length] in *. lia.
Qed.

Lemma decode_loop_inj (fuel : nat) :
  forall fuel' a b t,
    decode_loop fuel a = Some t ->
    decode_loop fuel' b = Some t ->
    a = b.
Proof.
  induction fuel as [|fuel IH]; intros fuel' a b t Ha Hb.
  - destruct a as [|a0 r]; [|discriminate].
    cbn in Ha. injection Ha as <-.
    destruct b as [|b0 r']; [reflexivity|].
    destruct fuel'; cbn [decode_loop] in Hb; [discriminate|].
    destruct (decode_one (b0 :: r')) as [[c k]|]; [|discriminate].
    destruct (decode_loop fuel' _); discriminate.
  - destruct a as [|a0 r].
    { cbn in Ha. injection Ha as <-.
      destruct b as [|b0 r']; [reflexivity|].
      destruct fuel'; cbn [decode_loop] in Hb; [discriminate|].
      destruct (decode_one (b0 :: r')) as [[c k]|]; [|discriminate].
      destruct (decode_loop fuel' _); discriminate. }
    cbn [decode_loop] in Ha.
    destruct (decode_one (a0 :: r)) as [[c k]|] eqn:Da; [|discriminate].
    destruct (decode_loop fuel (skipn k (a0 :: r))) as [ta|] eqn:Ra;
      [|discriminate].
    cbn in Ha. injection Ha as <-.
    destruct b as [|b0 r']; [destruct fuel'; discriminate|].
    destruct fuel' as [|fuel']; [discriminate|].
    cbn [decode_loop] in Hb.
    destruct (decode_one (b0 :: r')) as [[c' k']|] eqn:Db; [|discriminate].
    destruct (decode_loop fuel' (skipn k' (b0 :: r'))) as [tb|] eqn:Rb;
      [|discriminate].
    cbn in Hb. injection Hb as -> ->.
    destruct (decode_one_inj _ _ _ _ _ Da Db) as (<- & F).
    rewrite <- (firstn_skipn k (a0 :: r)), <- (firstn_skipn k (b0 :: r')).
    rewrite F. f_equal. apply (IH fuel' _ _ ta Ra Rb).
Qed.

Lemma decode_utf8_loop (b : list byte) :
  decode_utf8 b = decode_loop (List.length b) b.
Proof.
  unfold decode_utf8, decode. destruct (decode_loop _ b); reflexivity.
Qed.

(** X10.  [decode_utf8] is the identity on ASCII: bytes below 0x80
    decode to the text with just these code points. *)
Theorem decode_utf8_ascii (b : list byte) :
  Forall (fun x => Strings.Byte.to_N x < 0x80) b ->
  decode_utf8 b = Some (map Strings.Byte.to_N b).
Proof.
  rewrite decode_utf8_loop.
  induction 1 as [|x r Hx _ IH]; [reflexivity|].
  cbn [List.length decode_loop map].
  rewrite (one_byte_decodes (x :: r) (Strings.Byte.to_N x)).
  - cbn [skipn]. rewrite IH. reflexivity.
  - exists x, r. split; [reflexivity|]. cbv zeta. split; [exact Hx|reflexivity].
Qed.

Lemma decode_utf8_ascii_witness :
  decode_utf8 [x6e; x65; x74; x34; x36; x32] = Some [110; 101; 116; 52; 54; 50].
Proof.
  apply (decode_utf8_ascii [x6e; x65; x74; x34; x36; x32]).
  repeat constructor.
Defined.

(** X11.  Every code point of a text returned by [decode_utf8] is a
    Unicode scalar value: at most U+10FFFF and no surrogate. *)
Theorem decode_utf8_scalar_values (b : list byte) (t : list N) :
  decode_utf8 b = Some t -> Forall scalar t.
Proof. rewrite decode_utf8_loop. apply decode_loop_scalar. Qed.

Lemma decode_utf8_scalar_values_witness :
  Forall scalar [0xE9; 0x20AC; 0x1F600].
Proof.
  apply (decode_utf8_scalar_values
           [xc3; xa9; xe2; x82; xac; xf0; x9f; x98; x80]).
  reflexivity.
Defined.

(** X12.  Decoding goes piece by piece: when [a] decodes to [x], the
    bytes [a ++ b] decode to [x] followed by the text of [b], and fail
    exactly when [b] fails. *)
Theorem decode_utf8_app (a b : list byte) (x : list N) :
  decode_utf8 a = Some x ->
  decode_utf8 (a ++ b) = option_map (app x) (decode_utf8 b).
Proof.
  rewrite !decode_utf8_loop. intros H.
  apply (decode_loop_app (List.length a)); [lia|exact H].
Qed.

Lemma decode_utf8_app_witness :
  decode_utf8 ([xc3; xa9] ++ [xe2; x82; xac]) = Some [0xE9; 0x20AC] /\
  decode_utf8 ([xc3; xa9] ++ [xe2; x82]) = None.
Proof.
  split.
  - rewrite (decode_utf8_app [xc3; xa9] [xe2; x82; xac] [0xE9]); reflexivity.
  - rewrite (decode_utf8_app [xc3; xa9] [xe2; x82] [0xE9]); reflexivity.
Defined.

(** X13.  No two byte strings decode to the same text: overlong forms
    are refused, so a text has a single encoding. *)
Theorem decode_utf8_injective (a b : list byte) (t : list N) :
  decode_utf8 a = Some t -> decode_utf8 b = Some t -> a = b.
Proof. rewrite !decode_utf8_loop. apply decode_loop_inj. Qed.

Lemma decode_utf8_injective_witness :
  [xe2; x82; xac; x2f] = ([xe2; x82] ++ [xac; x2f])%list.
Proof.
  apply (decode_utf8_injective [xe2; x82; xac; x2f] ([xe2; x82] ++ [xac; x2f])
           [0x20AC; 0x2F]).
  - reflexivity.
  - reflexivity.
Defined.

Lemma decode_loop_length (fuel : nat) :
  forall bs t,
    decode_loop fuel bs = Some t ->
    (List.length t <= List.length bs <= 4 * List.length t)%nat.
Proof.
  induction fuel as [|fuel IH]; intros bs t H; destruct bs as [|b0 r];
    cbn [decode_loop] in H; try discriminate;
    try (injection H as <-; cbn; lia).
  destruct (decode_one (b0 :: r)) as [[c k]|] eqn:D; [|discriminate].
  destruct (decode_loop fuel (skipn k (b0 :: r))) as [t'|] eqn:R;
    [|discriminate].
  cbn in H. injection H as <-.
  destruct (decode_one_bounds _ _ _ D) as ((K1 & K4) & K2 & _).
  pose proof (IH _ _ R) as B. rewrite length_skipn in B.
  cbn [List.length] in *. lia.
Qed.

(** X14.  A decoded text has at most as many code points as the input
    has bytes, and at least a quarter as many. *)
Theorem decode_utf8_length (b : list byte) (t : list N) :
  decode_utf8 b = Some t ->
  (List.length t <= List.length b <= 4 * List.length t)%nat.
Proof. rewrite decode_utf8_loop. apply decode_loop_length. Qed.

Lemma decode_utf8_length_witness :
  (3 <= 9 <= 4 * 3)%nat.
Proof.
  apply (decode_utf8_length [xc3; xa9; xe2; x82; xac; xf0; x9f; x98; x80]
           [0xE9; 0x20AC; 0x1F600]).
  reflexivity.
Defined.

End Utf8Facts.
